(** * oakdb: the condition compiler, the SQLite backend and the Base facade

    A shallow embedding of [oakdb/queries.py], [oakdb/backends.py] and
    [oakdb/base.py].  Python values are a tagged variant, dictionaries that
    are iterated are association lists in insertion order, SQL tables keyed
    by their primary key are finite maps, and raised exceptions are the
    [Raise] branch of a small error monad. *)

From Stdlib Require Import ZArith Ascii String DecimalString.
From stdpp Require Import gmap strings list fin_maps.

Local Open Scope Z_scope.

(** ** Python values and exceptions *)

#[warnings="-register-all"]
Inductive pyobj : Type :=
| VNone
| VBool (b : bool)
| VInt (z : Z)
| VFloat (m e : Z)                      (* the float m * 2^e *)
| VStr (s : string)
| VList (l : list pyobj)
| VTuple (l : list pyobj)
| VDict (d : list (string * pyobj)).    (* insertion order *)

Inductive exn : Type :=
| ValueError (msg : string)
| AssertionError (msg : string)
| KeyError (k : string)
| TypeError (msg : string)
| AttributeError (msg : string)
| IndexError (msg : string)
| IntegrityError (msg : string)
| OperationalError (msg : string).

Inductive result (A : Type) : Type :=
| Ok (a : A)
| Raise (e : exn).
Arguments Ok {A} a.
Arguments Raise {A} e.

#[global] Instance result_ret : MRet result := fun A a => Ok a.

#[global] Instance result_bind : MBind result := fun A B k r =>
  match r with
  | Ok a => k a
  | Raise e => Raise e
  end.

#[global] Instance result_fmap : FMap result := fun A B f r =>
  match r with
  | Ok a => Ok (f a)
  | Raise e => Raise e
  end.

Definition raises {A} (r : result A) : Prop := exists e, r = Raise e.

Definition is_raise {A} (r : result A) : bool :=
  match r with Ok _ => false | Raise _ => true end.

(** [bool(v)] *)
Definition truthy (v : pyobj) : bool :=
  match v with
  | VNone => false
  | VBool b => b
  | VInt z => negb (z =? 0)
  | VFloat m _ => negb (m =? 0)
  | VStr s => negb (String.eqb s "")
  | VList l => match l with [] => false | _ => true end
  | VTuple l => match l with [] => false | _ => true end
  | VDict d => match d with [] => false | _ => true end
  end.

(** [type(v).__name__] *)
Definition type_name (v : pyobj) : string :=
  match v with
  | VNone => "NoneType"
  | VBool _ => "bool"
  | VInt _ => "int"
  | VFloat _ _ => "float"
  | VStr _ => "str"
  | VList _ => "list"
  | VTuple _ => "tuple"
  | VDict _ => "dict"
  end.

Definition no_attribute {A} (ty attr : string) : result A :=
  Raise (AttributeError
           ("'" +:+ ty +:+ "' object has no attribute '" +:+ attr +:+ "'")).

Definition is_none (v : pyobj) : bool :=
  match v with VNone => true | _ => false end.

(** [repr] of floats and containers is Python's own; it is left abstract. *)
Class PyRepr := py_repr : pyobj -> string.

(** [s.strip()] removes what Python counts as white space; it is left
    abstract. *)
Class PyStrip := py_strip : string -> string.

(** [str(v)], which is also what [format(v, spec)] gives for the empty spec. *)
Definition py_str {R : PyRepr} (v : pyobj) : string :=
  match v with
  | VNone => "None"
  | VBool true => "True"
  | VBool false => "False"
  | VInt z => NilZero.string_of_int (Z.to_int z)
  | VStr s => s
  | _ => py_repr v
  end.

(** The standard library: [json.dumps], [json.loads] and [int] on a string. *)
Class Builtins : Type := {
  json_dumps : pyobj -> string;
  json_loads : string -> result pyobj;
  int_of_str : string -> result Z
}.

(** A dict literal with string keys; [d[k]] raises [KeyError] when absent. *)
Fixpoint dict_get {A} (d : list (string * A)) (k : string) : option A :=
  match d with
  | [] => None
  | (k', a) :: d' => if String.eqb k' k then Some a else dict_get d' k
  end.

(** [tpl.format(arg)] for a template with replacement fields [{}]; every
    template below has exactly one, and one argument is supplied. *)
Fixpoint format1 (tpl arg : string) : string :=
  match tpl with
  | EmptyString => EmptyString
  | String "{"%char (String "}"%char rest) => arg +:+ rest
  | String c rest => String c (format1 rest arg)
  end.

(** [s.split(sep)] for the two-character separator [__]: left to right,
    matches do not overlap.  [cur] is the current piece, reversed. *)
Fixpoint split_dunder_aux (s : string) (cur : list ascii) : list string :=
  match s with
  | EmptyString => [string_of_list_ascii (rev cur)]
  | String "_"%char (String "_"%char rest) =>
      string_of_list_ascii (rev cur) :: split_dunder_aux rest []
  | String c rest => split_dunder_aux rest (c :: cur)
  end.

Definition split_dunder (s : string) : list string := split_dunder_aux s [].

(** [s.startswith(p)] *)
Definition startswith (p s : string) : bool := String.prefix p s.

(** [s.upper()] on ASCII letters. *)
Definition upper_ascii (c : ascii) : ascii :=
  let n := nat_of_ascii c in
  if ((97 <=? n) && (n <=? 122))%nat then ascii_of_nat (n - 32) else c.

Fixpoint upper (s : string) : string :=
  match s with
  | EmptyString => EmptyString
  | String c rest => String (upper_ascii c) (upper rest)
  end.

(** The line feed of the triple-quoted SQL texts. *)
Definition nl : string := String (ascii_of_nat 10) EmptyString.

(** The number of [?] characters of a SQL fragment. *)
Fixpoint count_q (s : string) : nat :=
  match s with
  | EmptyString => 0%nat
  | String c rest => ((if Ascii.eqb c "?"%char then 1 else 0) + count_q rest)%nat
  end.

(** ** queries.py *)

Module Queries.

Definition COLUMN_KEYS : list string :=
  ["_key"; "_data"; "_created"; "_updated"; "_embedding"].

Definition JSON_OPERATORS : list (string * option string) :=
  [ ("eq", Some "{} = ?");
    ("ne", Some "{} != ?");
    ("lt", Some "CAST({} as NUMERIC) < ?");
    ("gt", Some "CAST({} as NUMERIC) > ?");
    ("lte", Some "CAST({} as NUMERIC) <= ?");
    ("gte", Some "CAST({} as NUMERIC) >= ?");
    ("starts", Some "{} LIKE ?");
    ("ends", Some "{} LIKE ?");
    ("range", Some "CAST({} as NUMERIC) BETWEEN ? AND ?");
    ("contains", Some "{} LIKE ?");
    ("!contains", Some "{} NOT LIKE ?");
    ("in", None);
    ("!in", None) ].

Definition COLUMN_OPERATORS : list (string * option string) :=
  [ ("eq", Some "{} = ?");
    ("ne", Some "{} != ?");
    ("lt", Some "{} < ?");
    ("gt", Some "{} > ?");
    ("lte", Some "{} <= ?");
    ("gte", Some "{} >= ?");
    ("starts", Some "{} LIKE ?");
    ("ends", Some "{} LIKE ?");
    ("range", Some "{} BETWEEN ? AND ?");
    ("contains", Some "{} LIKE ?");
    ("!contains", Some "{} NOT LIKE ?");
    ("in", None);
    ("!in", None) ].

Definition NULL_SQL : list (string * string) :=
  [ ("eq", "{} IS NULL"); ("ne", "{} IS NOT NULL") ].

Definition LIKE_FORMATTERS : list (string * string) :=
  [ ("starts", "{}%"); ("ends", "%{}"); ("contains", "%{}%");
    ("!contains", "%{}%") ].

(** The dataclass [Condition]. *)
Record Condition : Type := mkCondition {
  operator : string;
  field : string;
  value : pyobj;
  field_expression : string;
  param : list pyobj;
  column_name : string
}.

Definition is_column_query (c : Condition) : bool :=
  startswith "_" (field c) && bool_decide (field c ∈ COLUMN_KEYS).

Definition is_json (c : Condition) : bool := negb (is_column_query c).

Definition operators (c : Condition) : list (string * option string) :=
  if is_json c then JSON_OPERATORS else COLUMN_OPERATORS.

Definition null_operator (c : Condition) : list (string * string) := NULL_SQL.

Definition is_valid_null_query (c : Condition) : bool :=
  match dict_get (null_operator c) (operator c) with
  | Some tpl => truthy (VStr tpl) && is_none (value c)
  | None => false
  end.

Definition set_param (c : Condition) (p : list pyobj) : Condition :=
  mkCondition (operator c) (field c) (value c) (field_expression c) p
    (column_name c).

Definition set_field_expression (c : Condition) (fe : string) : Condition :=
  mkCondition (operator c) (field c) (value c) fe (param c) (column_name c).

Definition handle_range (c : Condition) : result Condition :=
  if negb (truthy (value c)) then
    Raise (ValueError "Range lookup values can't be empty")
  else
    match value c with
    | VList [a; b] => Ok (set_param c [a; b])
    | VTuple [a; b] => Ok (set_param c [a; b])
    | _ => Raise (ValueError
             "Range operator requires a tuple or list with exactly 2 values")
    end.

Section WithRepr.
Context {R : PyRepr}.

Definition process_param_value (c : Condition) : result Condition :=
  if is_valid_null_query c then Ok (set_param c [])
  else if String.eqb (operator c) "range" then handle_range c
  else
    match dict_get LIKE_FORMATTERS (operator c) with
    | Some tpl => Ok (set_param c [VStr (format1 tpl (py_str (value c)))])
    | None => Ok (set_param c [value c])
    end.

Definition invalid_operator_msg (op : string) : string :=
  op +:+ " isn not a valid operator. Options: dict_keys(['eq', 'ne', 'lt', 'gt', 'lte', 'gte', 'starts', 'ends', 'range', 'contains', '!contains', 'in', '!in'])".

(** [Condition(operator=..., field=..., value=..., column_name=...)]:
    the generated [__init__] followed by [__post_init__]. *)
Definition new_Condition (op fld : string) (v : pyobj) (col : string)
  : result Condition :=
  let c := mkCondition op fld v "" [] col in
  match dict_get (operators c) (operator c) with
  | None => Raise (ValueError (invalid_operator_msg op))
  | Some _ =>
      let c :=
        if is_column_query c then
          set_field_expression c (String.substring 1 (String.length fld - 1) fld)
        else
          let json_path :=
            if String.eqb (field c) "data" then "$" else "$." +:+ field c in
          set_field_expression c
            ("json_extract(" +:+ column_name c +:+ ", '" +:+ json_path +:+ "')")
      in
      process_param_value c
  end.

Definition ins_sql (c : Condition) : result string :=
  match value c with
  | VList l =>
      let plc := if is_json c then "json(?)" else "?" in
      let placeholders := String.concat "," (map (fun _ => plc) l) in
      Ok (field_expression c +:+ " "
          +:+ (if String.eqb (operator c) "in" then "IN" else "NOT IN")
          +:+ " (" +:+ placeholders +:+ ")")
  | _ => Raise (ValueError (operator c +:+
           " only supports lists. You might need to use `contains` and `!contains`"))
  end.

Definition null_sql (c : Condition) : result string :=
  if is_valid_null_query c then
    match dict_get (null_operator c) (operator c) with
    | Some tpl => Ok (format1 tpl (field_expression c))
    | None => Raise (KeyError (operator c))
    end
  else Raise (ValueError "Not valid null query.").

Definition get_cond_sql (c : Condition) : result string :=
  if is_none (value c) then null_sql c
  else
    match dict_get (operators c) (operator c) with
    | None => Raise (KeyError (operator c))
    | Some sql =>
        if negb (match sql with Some t => truthy (VStr t) | None => false end)
        then ins_sql c
        else match sql with
             | Some t => Ok (format1 t (field_expression c))
             | None => ins_sql c
             end
    end.

(** What one iteration of the loop of [build_condition] computes from a
    [(field, value)] item: the fragment and the parameters it appends. *)
Definition condition_of_item (col : string) (item : string * pyobj)
  : result (string * list pyobj) :=
  let '(fld, v) := item in
  let field_parts := split_dunder fld in
  if (2 <? length field_parts)%nat then
    Raise (ValueError "More than one __ in query")
  else
    let op :=
      if (1 <? length field_parts)%nat then nth 1 field_parts "" else "eq" in
    let field_name :=
      if (1 <? length field_parts)%nat then nth 0 field_parts "" else fld in
    cond ← new_Condition op field_name v col;
    sql ← get_cond_sql cond;
    mret (sql, param cond).

(** The [for] loop of [build_condition], with its two accumulators. *)
Fixpoint build_condition_loop (items : list (string * pyobj)) (col : string)
    (clauses : list string) (params : list pyobj)
  : result (list string * list pyobj) :=
  match items with
  | [] => Ok (clauses, params)
  | item :: rest =>
      '(sql, p) ← condition_of_item col item;
      build_condition_loop rest col (clauses ++ [sql]) (params ++ p)
  end.

Definition build_condition (conditions : list (string * pyobj)) (col : string)
  : result (string * list pyobj) :=
  '(clauses, params) ← build_condition_loop conditions col [] [];
  mret (String.concat " AND " clauses, params).

(** The [for] loop of [build_where_clause]; an element that is not a dict
    has no [items()]. *)
Fixpoint build_where_loop (conditions : list pyobj) (col : string)
    (clauses : list string) (params : list pyobj)
  : result (list string * list pyobj) :=
  match conditions with
  | [] => Ok (clauses, params)
  | condition :: rest =>
      '(and_sql, and_params) ←
        match condition with
        | VDict d => build_condition d col
        | _ => no_attribute (type_name condition) "items"
        end;
      build_where_loop rest col (clauses ++ [and_sql]) (params ++ and_params)
  end.

Definition build_where_clause (conditions : pyobj) (col : string)
  : result (string * list pyobj) :=
  match conditions with
  | VDict d => build_condition d col
  | VList l | VTuple l =>
      '(clauses, params) ← build_where_loop l col [] [];
      mret ("(" +:+ String.concat " OR " clauses +:+ ")", params)
  | VStr EmptyString => Ok ("()", [])
  | VStr _ => no_attribute "str" "items"
  | _ => Raise (TypeError
           ("'" +:+ type_name conditions +:+ "' object is not iterable"))
  end.

(** [get_args(OrderFetch)] *)
Definition OrderFetch : list string :=
  [ "key__asc"; "key__desc"; "data__asc"; "data__desc"; "created__asc";
    "created__desc"; "updated__asc"; "updated__desc" ].

(** [build_fetch(base_name, conditions=..., limit=..., offset=..., order=...,
    count=...)]; the default column name of [build_where_clause] is [data]. *)
Definition build_fetch (base_name : string) (conditions : pyobj)
    (limit offset : Z) (order : string) (count : bool)
  : result (string * list pyobj) :=
  '(where_sql, params) ←
    (if truthy conditions then build_where_clause conditions "data"
     else Ok ("", []));
  let where_part :=
    if truthy (VStr where_sql) then "WHERE " +:+ where_sql else "" in
  if count then
    Ok (nl +:+ "        SELECT COUNT(*) FROM " +:+ base_name +:+ nl
        +:+ "        " +:+ where_part +:+ nl
        +:+ "        ", params)
  else if negb (bool_decide (order ∈ OrderFetch)) then
    Raise (AssertionError ("Invalid order type: " +:+ order))
  else
    match split_dunder order with
    | [fld; direction] =>
        Ok (nl +:+ "    SELECT key, data, created, updated FROM " +:+ base_name
            +:+ nl +:+ "    " +:+ where_part +:+ nl
            +:+ "    ORDER BY " +:+ fld +:+ " " +:+ upper direction +:+ nl
            +:+ "    LIMIT ?" +:+ nl
            +:+ "    OFFSET ?" +:+ nl
            +:+ "    ", params ++ [VInt limit; VInt offset])
    | _ => Raise (ValueError "not enough values to unpack")
    end.

(** [get_args(OrderSearch)] *)
Definition OrderSearch : list string :=
  [ "key__asc"; "key__desc"; "data__asc"; "data__desc"; "created__asc";
    "created__desc"; "updated__asc"; "updated__desc"; "rank__asc";
    "rank__desc" ].

(** [build_search(base_name, query, conditions=..., limit=..., offset=...,
    order=..., count=...)] *)
Definition build_search {S : PyStrip} (base_name query : string)
    (conditions : pyobj) (limit offset : Z) (order : string) (count : bool)
  : result (string * list pyobj) :=
  if negb (truthy (VStr query)) || negb (truthy (VStr (py_strip query))) then
    Raise (ValueError "Search query cannot be empty")
  else
    '(where_sql, where_params) ←
      (if truthy conditions then build_where_clause conditions "data"
       else Ok ("", []));
    let params := [VStr query] ++ where_params in
    let and_part :=
      if truthy (VStr where_sql) then "AND " +:+ where_sql else "" in
    if count then
      Ok (nl +:+ "        SELECT COUNT(*) FROM " +:+ base_name +:+ "_fts" +:+ nl
          +:+ "        WHERE data MATCH ?" +:+ nl
          +:+ "        " +:+ and_part +:+ nl
          +:+ "        ", params)
    else if negb (bool_decide (order ∈ OrderSearch)) then
      Raise (AssertionError ("Invalid order type: " +:+ order))
    else
      match split_dunder order with
      | [fld; direction] =>
          Ok (nl +:+ "    SELECT key, data, created, updated, rank FROM "
              +:+ base_name +:+ "_fts" +:+ nl
              +:+ "    WHERE " +:+ base_name +:+ "_fts MATCH ?" +:+ nl
              +:+ "    " +:+ and_part +:+ nl
              +:+ "    ORDER BY " +:+ fld +:+ " " +:+ upper direction +:+ nl
              +:+ "    LIMIT ?" +:+ nl
              +:+ "    OFFSET ?" +:+ nl
              +:+ "    ", params ++ [VInt limit; VInt offset])
      | _ => Raise (ValueError "not enough values to unpack")
      end.

(** [get_args(OrderVector)] *)
Definition OrderVector : list string :=
  [ "key__asc"; "key__desc"; "data__asc"; "data__desc"; "created__asc";
    "created__desc"; "updated__asc"; "updated__desc"; "distance__asc";
    "distance__desc" ].

(** [build_vsearch(base_name, query, conditions=..., limit=..., order=...,
    distance_f=...)]; [query] is the embedding of the text searched for. *)
Definition build_vsearch (base_name : string) (query : pyobj)
    (conditions : pyobj) (limit : Z) (order : string) (distance_f : string)
  : result (string * list pyobj) :=
  if negb (bool_decide (order ∈ OrderVector)) then
    Raise (AssertionError ("Invalid order type: " +:+ order))
  else
    match split_dunder order with
    | [fld; direction] =>
        '(where_sql, where_params) ←
          (if truthy conditions then build_where_clause conditions "tb.data"
           else Ok ("", []));
        let params := ([query] ++ where_params) ++ [VInt limit] in
        Ok (nl +:+ "        SELECT tb.key, tb.data, tb.created, tb.updated" +:+ nl
            +:+ "        FROM " +:+ base_name +:+ " AS tb" +:+ nl
            +:+ "        INNER JOIN " +:+ base_name
            +:+ "_vec AS vb on vb.key = tb.key" +:+ nl
            +:+ "        WHERE vec_distance_" +:+ distance_f
            +:+ "(vb.embedding, ?) AND k = ?" +:+ nl
            +:+ "        "
            +:+ (if truthy (VStr where_sql) then "AND " +:+ where_sql else "")
            +:+ nl
            +:+ "        ORDER BY "
            +:+ (if String.eqb fld "distance" then "vb.distance"
                 else "tb." +:+ fld)
            +:+ " " +:+ upper direction +:+ nl
            +:+ "        ", params)
    | _ => Raise (ValueError "not enough values to unpack")
    end.

End WithRepr.

End Queries.

(** ** backends.py *)

Module Backends.

(** A row of a base's table: the columns besides the primary key [key].
    [created] and [updated] are seconds of the engine's clock. *)
Record row : Type := mkRow {
  data : string;
  embedding : option string;
  created : Z;
  updated : Z
}.

(** The tables of the store, by column layout.  The contents of the fts5 and
    vec0 mirrors are not modelled. *)
Inductive table : Type :=
| Primary (rows : gmap string row)
| Conf (flags : gmap string string)
| Virtual.

(** The backend object with the database file behind its connection. *)
Record SQLiteBackend : Type := mkBackend {
  tables : gmap string table;
  triggers : gmap string string;    (* trigger name, the table it is on *)
  embedder : option (string -> string);
  vec_enabled : bool;
  draws : nat                       (* keys drawn from [random] so far *)
}.

Definition with_tables (db : SQLiteBackend) (ts : gmap string table)
  : SQLiteBackend :=
  mkBackend ts (triggers db) (embedder db) (vec_enabled db) (draws db).

Definition with_schema (db : SQLiteBackend) (ts : gmap string table)
    (tg : gmap string string) : SQLiteBackend :=
  mkBackend ts tg (embedder db) (vec_enabled db) (draws db).

(** What the module takes from its environment: whether the optional vector
    packages import, the random generator, how the driver binds a value
    that is not a string to the TEXT column [key], and the engine's answer
    to a SELECT built by [queries.py]. *)
Class Engine : Type := {
  VECTOR_DEPS : bool;
  random_choices : nat -> string -> nat -> string;
  sqlite_bind : pyobj -> result string;
  sqlite_select :
    gmap string table -> string -> list pyobj -> result (list (list pyobj))
}.

(** [isinstance(e, sqlite3.Error)] *)
Definition is_sqlite_error (e : exn) : bool :=
  match e with
  | IntegrityError _ | OperationalError _ => true
  | _ => false
  end.

(** [str(e)] *)
Definition exn_str (e : exn) : string :=
  match e with
  | ValueError m | AssertionError m | IntegrityError m | OperationalError m
  | TypeError m | AttributeError m | IndexError m => m
  | KeyError k => "'" +:+ k +:+ "'"
  end.

Definition no_such_table {A} (name : string) : result A :=
  Raise (OperationalError ("no such table: " +:+ name)).

(** The rows of an ordinary base table. *)
Definition rows_of (ts : gmap string table) (name : string)
  : result (gmap string row) :=
  match ts !! name with
  | Some (Primary rows) => Ok rows
  | Some (Conf _) => Raise (OperationalError "no such column: key")
  | Some Virtual => Raise (OperationalError "unsupported table")
  | None => no_such_table name
  end.

(** [INSERT INTO name (key, data, created, updated) VALUES (...)] *)
Definition sql_insert (name key dat : string) (cr up : Z)
    (ts : gmap string table) : result (gmap string table) :=
  rows ← rows_of ts name;
  match rows !! key with
  | Some _ =>
      Raise (IntegrityError ("UNIQUE constraint failed: " +:+ name +:+ ".key"))
  | None => Ok (<[name := Primary (<[key := mkRow dat None cr up]> rows)]> ts)
  end.

(** [INSERT OR REPLACE INTO name (key, data, created, updated) VALUES (...)]:
    a row with the same key is deleted first. *)
Definition sql_insert_or_replace (name key dat : string) (cr up : Z)
    (ts : gmap string table) : result (gmap string table) :=
  rows ← rows_of ts name;
  Ok (<[name := Primary (<[key := mkRow dat None cr up]> rows)]> ts).

(** [(SELECT created FROM name WHERE key = ?)] as a scalar subquery. *)
Definition sql_select_created (name key : string) (ts : gmap string table)
  : result (option Z) :=
  rows ← rows_of ts name;
  Ok (created <$> rows !! key).

(** [UPDATE name SET embedding = ? WHERE key = ?] *)
Definition sql_update_embedding (name key emb : string)
    (ts : gmap string table) : result (gmap string table) :=
  rows ← rows_of ts name;
  Ok (<[name :=
         Primary (alter (fun r => mkRow (data r) (Some emb) (created r)
                                    (updated r)) key rows)]> ts).

(** [DROP TABLE IF EXISTS name]: the engine deletes the triggers on the
    table with it. *)
Definition sql_drop_table (name : string) (db : SQLiteBackend)
  : SQLiteBackend :=
  with_schema db (delete name (tables db))
    (filter (fun kv => kv.2 ≠ name) (triggers db)).

(** [DROP TRIGGER IF EXISTS name] *)
Definition sql_drop_trigger (name : string) (db : SQLiteBackend)
  : SQLiteBackend :=
  with_schema db (tables db) (delete name (triggers db)).

(** [CREATE TABLE IF NOT EXISTS name ...] *)
Definition sql_create_table (name : string) (t : table) (db : SQLiteBackend)
  : SQLiteBackend :=
  match tables db !! name with
  | Some _ => db
  | None => with_tables db (<[name := t]> (tables db))
  end.

(** [CREATE TRIGGER IF NOT EXISTS name ... ON tbl] *)
Definition sql_create_trigger (name tbl : string) (db : SQLiteBackend)
  : result SQLiteBackend :=
  match triggers db !! name with
  | Some _ => Ok db
  | None =>
      match tables db !! tbl with
      | Some _ => Ok (with_schema db (tables db) (<[name := tbl]> (triggers db)))
      | None => no_such_table ("main." +:+ tbl)
      end
  end.

Definition key_chars : string := "abcdefhiklmnorstuvwxz1234567890".

(** The most placeholders that one statement may have: the engine's
    [SQLITE_MAX_VARIABLE_NUMBER], as compiled by default since SQLite
    3.32. *)
Definition max_variable_number : Z := 32766.

Section WithEngine.
Context {R : PyRepr} {E : Engine}.

Definition genkey (keylen : nat) (chars : string) (db : SQLiteBackend)
  : string * SQLiteBackend :=
  (random_choices (draws db)
     (if truthy (VStr chars) then chars else key_chars) keylen,
   mkBackend (tables db) (triggers db) (embedder db) (vec_enabled db)
     (S (draws db))).

(** [initialize(base_name)].  The statements carry the name of the base as
    it is: this is the store after them for a name that the engine takes as
    a table name; for another name the engine refuses the first statement
    and the call raises. *)
Definition initialize (base_name : string) (db : SQLiteBackend)
  : SQLiteBackend :=
  let db := sql_create_table base_name (Primary ∅) db in
  sql_create_table "oak_conf" (Conf ∅) db.

(** [serialize_float32(self.embedder.embed_documents([text])[0])], by the
    embedder held in the backend. *)
Definition embed_document (db : SQLiteBackend) (text : string)
  : result string :=
  match embedder db with
  | Some f => Ok (f text)
  | None => no_attribute "NoneType" "embed_documents"
  end.

Definition add_embedding (base_name key text : string) (db : SQLiteBackend)
  : result unit * SQLiteBackend :=
  match embed_document db text with
  | Raise e => (Raise e, db)
  | Ok emb =>
      match sql_update_embedding base_name key emb (tables db) with
      | Raise e => (Raise e, db)
      | Ok ts => (Ok (), with_tables db ts)
      end
  end.

Fixpoint executemany_update_embedding (base_name : string)
    (items : list (string * string)) (ts : gmap string table)
  : result (gmap string table) :=
  match items with
  | [] => Ok ts
  | (emb, key) :: rest =>
      ts' ← sql_update_embedding base_name key emb ts;
      executemany_update_embedding base_name rest ts'
  end.

Definition adds_embedding (base_name : string) (texts : list (string * string))
    (db : SQLiteBackend) : result unit * SQLiteBackend :=
  match embedder db with
  | None => (no_attribute "NoneType" "embed_documents", db)
  | Some f =>
      let items := map (fun t => (f t.2, t.1)) texts in
      match executemany_update_embedding base_name items (tables db) with
      | Raise e => (Raise e, db)
      | Ok ts => (Ok (), with_tables db ts)
      end
  end.

(** [add(base_name, key, data, override)] when the engine's clock reads
    [now].  A statement that fails leaves the database as it was. *)
Definition add (base_name key dat : string) (override : bool) (now : Z)
    (db : SQLiteBackend) : result unit * SQLiteBackend :=
  let r :=
    if override then
      old ← sql_select_created base_name key (tables db);
      sql_insert_or_replace base_name key dat (default now old) now (tables db)
    else sql_insert base_name key dat now now (tables db) in
  match r with
  | Raise e => (Raise e, db)
  | Ok ts =>
      let db := with_tables db ts in
      if vec_enabled db then add_embedding base_name key dat db
      else (Ok (), db)
  end.

(** The result dictionary of [adds]; the key [error] is present only on
    failure. *)
Record adds_result : Type := mkAddsResult {
  success : bool;
  rows_affected : Z;
  error : option string
}.

(** A key bound to the TEXT column: a string as it is. *)
Definition bind_key (k : pyobj) : result string :=
  match k with
  | VStr s => Ok s
  | _ => sqlite_bind k
  end.

(** [cur.executemany(sql, items)] for the two INSERT statements of [adds]:
    both give [CURRENT_TIMESTAMP] to [created] and to [updated].  The clock
    is read once, as [now]: a batch that the engine writes within one
    second.  Where a batch takes longer the rows carry the readings of
    their own statements, each with [created] equal to [updated]. *)
Fixpoint executemany_insert (override : bool) (base_name : string)
    (items : list (pyobj * string)) (now : Z) (ts : gmap string table)
  : result (gmap string table) :=
  match items with
  | [] => Ok ts
  | (k, dat) :: rest =>
      key ← bind_key k;
      ts' ← (if override
             then sql_insert_or_replace base_name key dat now now ts
             else sql_insert base_name key dat now now ts);
      executemany_insert override base_name rest now ts'
  end.

Definition adds_failure (e : exn) : adds_result :=
  mkAddsResult false 0 (Some (exn_str e)).

(** [adds(base_name, items, override)].  The batch is one transaction: a
    failing row rolls the whole batch back. *)
Definition adds (base_name : string) (items : list (pyobj * string))
    (override : bool) (now : Z) (db : SQLiteBackend)
  : result adds_result * SQLiteBackend :=
  match executemany_insert override base_name items now (tables db) with
  | Raise e =>
      if is_sqlite_error e then (Ok (adds_failure e), db) else (Raise e, db)
  | Ok ts =>
      let rows_affected := Z.of_nat (length items) in
      let db := with_tables db ts in
      if vec_enabled db then
        let keys_texts := map (fun x => (py_str x.1, x.2)) items in
        match adds_embedding base_name keys_texts db with
        | (Raise e, db') =>
            if is_sqlite_error e then (Ok (adds_failure e), db')
            else (Raise e, db')
        | (Ok _, db') => (Ok (mkAddsResult true rows_affected None), db')
        end
      else (Ok (mkAddsResult true rows_affected None), db)
  end.

(** [get(base_name, key)]: the row [(key, data, created, updated)]. *)
Definition get (base_name key : string) (db : SQLiteBackend)
  : result (option (string * string * Z * Z)) :=
  rows ← rows_of (tables db) base_name;
  Ok ((fun r => (key, data r, created r, updated r)) <$> rows !! key).

(** [delete(base_name, key)]: whether a row was removed.  The triggers of
    the table are not run: this is the statement on a table without
    triggers, or with triggers whose mirror is in the store. *)
Definition delete (base_name key : string) (db : SQLiteBackend)
  : result bool * SQLiteBackend :=
  match rows_of (tables db) base_name with
  | Raise e => (Raise e, db)
  | Ok rows =>
      let rowcount : Z := if rows !! key is Some _ then 1 else 0 in
      (Ok (0 <? rowcount),
       with_tables db (<[base_name := Primary (base.delete key rows)]>
                         (tables db)))
  end.

(** [deletes(base_name, keys)]: the number of rows removed.  The statement
    has one placeholder for each key; it is compiled, which fails beyond
    the engine's limit on placeholders or without the table, before the
    keys are bound. *)
Definition deletes (base_name : string) (keys : list pyobj)
    (db : SQLiteBackend) : result Z * SQLiteBackend :=
  if max_variable_number <? Z.of_nat (length keys) then
    (Raise (OperationalError "too many SQL variables"), db)
  else
    match rows_of (tables db) base_name with
    | Raise e => (Raise e, db)
    | Ok rows =>
        match mapM bind_key keys with
        | Raise e => (Raise e, db)
        | Ok keys =>
            let rows' := foldr base.delete rows keys in
            (Ok (Z.of_nat (size rows) - Z.of_nat (size rows')),
             with_tables db (<[base_name := Primary rows']> (tables db)))
        end
    end.

Definition fetch_query (base_name : string) (filters : pyobj) (count : bool)
    (limit offset : Z) (order : string) (db : SQLiteBackend)
  : result (list (list pyobj)) :=
  '(query, params) ←
    Queries.build_fetch base_name filters limit offset order count;
  sqlite_select (tables db) query params.

(** [create_fts_table(base_name)].  The virtual table is created before the
    statements that need the base table. *)
Definition create_fts_table (base_name : string) (db : SQLiteBackend)
  : result unit * SQLiteBackend :=
  let db := sql_create_table (base_name +:+ "_fts") Virtual db in
  match rows_of (tables db) base_name with
  | Raise e => (Raise e, db)
  | Ok _ =>
      let r :=
        db ← sql_create_trigger (base_name +:+ "_ai") base_name db;
        db ← sql_create_trigger (base_name +:+ "_ad") base_name db;
        sql_create_trigger (base_name +:+ "_au") base_name db in
      match r with
      | Raise e => (Raise e, db)
      | Ok db' => (Ok (), db')
      end
  end.

Inductive drop_stmt : Type :=
| DropTable (name : string)       (* DROP TABLE IF EXISTS name *)
| DropTrigger (name : string).    (* DROP TRIGGER IF EXISTS name *)

Definition execute_drop (db : SQLiteBackend) (sql : drop_stmt)
  : SQLiteBackend :=
  match sql with
  | DropTable name => sql_drop_table name db
  | DropTrigger name => sql_drop_trigger name db
  end.

(** The list [droplist] that [drop_tables] builds for [kind]. *)
Definition droplist (base_name kind : string) : list drop_stmt :=
  (if bool_decide (kind ∈ ["all"; "main"]) then
     [DropTable base_name; DropTable "oak_conf"]
   else [])
  ++ (if bool_decide (kind ∈ ["all"; "search"]) then
        [DropTable (base_name +:+ "_fts");
         DropTrigger (base_name +:+ "_ai");
         DropTrigger (base_name +:+ "_au");
         DropTrigger (base_name +:+ "_ad")]
      else [])
  ++ (if bool_decide (kind ∈ ["all"; "vector"]) && VECTOR_DEPS then
        [DropTable (base_name +:+ "_vec");
         DropTrigger (base_name +:+ "_emb")]
      else []).

(** [drop_tables(base_name, kind)]: the store after the statements of the
    list, for a name that the engine takes as a table name and mirrors
    whose module is loaded; where the engine refuses a statement the call
    raises. *)
Definition drop_tables (base_name kind : string) (db : SQLiteBackend)
  : SQLiteBackend :=
  foldl execute_drop db (droplist base_name kind).

(** [INSERT OR REPLACE INTO oak_conf(key, value) VALUES (?, ?)] *)
Definition set_config (key val : string) (db : SQLiteBackend)
  : result unit * SQLiteBackend :=
  match tables db !! "oak_conf" with
  | Some (Conf flags) =>
      (Ok (), with_tables db (<["oak_conf" := Conf (<[key := val]> flags)]>
                                (tables db)))
  | Some (Primary _) =>
      (Raise (OperationalError "table oak_conf has no column named value"), db)
  | Some Virtual => (Raise (OperationalError "unsupported table"), db)
  | None => (no_such_table "oak_conf", db)
  end.

(** [dict(cur.execute("SELECT * FROM oak_conf").fetchall())]: rows that are
    not pairs do not make a dictionary. *)
Definition get_configs (base_name : string) (db : SQLiteBackend)
  : result (gmap string string) :=
  match tables db !! "oak_conf" with
  | Some (Conf flags) => Ok flags
  | Some (Primary rows) =>
      if decide (rows = ∅) then Ok ∅
      else Raise (ValueError
             "dictionary update sequence element #0 has length 5; 2 is required")
  | Some Virtual => Raise (OperationalError "unsupported table")
  | None => no_such_table "oak_conf"
  end.

(** The class defines no method [vdb]: looking it up fails. *)
Definition vdb (db : SQLiteBackend) : result unit :=
  no_attribute "SQLiteBackend" "vdb".

End WithEngine.

End Backends.

(** ** base.py *)

Module Facade.

Module DeleteResponse.
Record t : Type := mk { key : string; deleted : bool; error : string }.
Definition empty : t := mk "" false "".
(** [__bool__] *)
Definition bool_ (r : t) : bool := String.eqb (error r) "".
End DeleteResponse.

Module AddsResponse.
Record t : Type := mk { keys : list pyobj; success : bool; error : string }.
Definition bool_ (r : t) : bool := success r && String.eqb (error r) "".
End AddsResponse.

Module ItemsResponse.
Record t : Type := mk {
  page : Z;
  pages : Z;
  total : Z;
  limit : Z;
  items : list pyobj;
  error : string
}.
Definition bool_ (r : t) : bool := String.eqb (error r) "".
End ItemsResponse.

(** A [Base] object; the backend it refers to is shared and is passed along
    as the state. *)
Record Base : Type := mkBase {
  name : string;
  search_enabled : bool;
  vector_enabled : bool
}.

(** Dict objects live in a store, so that two references to one object see
    each other's updates. *)
Definition loc : Type := nat.
Abbreviation heap := (gmap loc (list (string * pyobj))).

(** An element of the argument of [adds]: a reference to a dict object, or
    a value of another type. *)
Inductive item : Type :=
| DictRef (l : loc)
| Plain (v : pyobj).

(** The argument of [adds]: a list or tuple of items, or a value that is
    neither list, tuple nor set. *)
Inductive adds_arg : Type :=
| Items (l : list item)
| NotItems (v : pyobj).

(** A value of the dict [kv] of a response: an object, or a timestamp as
    the engine's clock counts it. *)
Inductive cell : Type :=
| Obj (x : item)
| Stamp (t : Z).

(** The response of [add] and of [get].  [data] is the object handed to
    [add], a dict by reference, or the value that [get] decodes. *)
Module AddResponse.
Record t : Type := mk {
  key : string;
  data : item;
  kv : list (string * cell);
  error : string
}.
Definition empty : t := mk "" (Plain VNone) [] "".
(** [__bool__] *)
Definition bool_ (r : t) : bool := String.eqb (error r) "".
End AddResponse.

Module DeletesResponse.
Record t : Type := mk { deletes : Z; error : string }.
Definition bool_ (r : t) : bool := String.eqb (error r) "".
End DeletesResponse.

(** [d[k] = v]: a key that is present keeps its place. *)
Fixpoint dict_set {A} (d : list (string * A)) (k : string) (v : A)
  : list (string * A) :=
  match d with
  | [] => [(k, v)]
  | (k', v') :: d' =>
      if String.eqb k' k then (k', v) :: d' else (k', v') :: dict_set d' k v
  end.

(** [d.pop(k, None)] *)
Fixpoint dict_pop (d : list (string * pyobj)) (k : string)
  : pyobj * list (string * pyobj) :=
  match d with
  | [] => (VNone, [])
  | (k', v) :: d' =>
      if String.eqb k' k then (v, d')
      else let '(r, d'') := dict_pop d' k in (r, (k', v) :: d'')
  end.

(** [x or y] *)
Definition py_or (x y : pyobj) : pyobj := if truthy x then x else y.

Definition class_repr (v : pyobj) : string :=
  "<class '" +:+ type_name v +:+ "'>".

(** [int(v)] *)
Definition py_int {B : Builtins} (v : pyobj) : result Z :=
  match v with
  | VInt z => Ok z
  | VBool b => Ok (if b then 1 else 0)
  | VFloat m e => Ok (if 0 <=? e then m * 2 ^ e else Z.quot m (2 ^ (- e)))
  | VStr s => int_of_str s
  | _ => Raise (TypeError
           ("int() argument must be a string, a bytes-like object or a real number, not '"
            +:+ type_name v +:+ "'"))
  end.

Section WithEnv.
Context {R : PyRepr} {B : Builtins} {E : Backends.Engine}.

(** [Base(name, backend)] *)
Definition new_Base (nm : string) (db : Backends.SQLiteBackend)
  : result Base * Backends.SQLiteBackend :=
  let db := Backends.initialize nm db in
  match Backends.get_configs nm db with
  | Raise e => (Raise e, db)
  | Ok confs =>
      let search :=
        match confs !! (nm +:+ "_search") with
        | Some v => truthy (VStr v)
        | None => truthy (VBool false)
        end in
      let vector :=
        match Backends.vdb db with
        | Ok _ =>
            match confs !! (nm +:+ "_vector") with
            | Some v => truthy (VStr v)
            | None => truthy (VBool false)
            end
        | Raise _ => false
        end in
      (Ok (mkBase nm search vector), db)
  end.

Definition enable_search (self : Base) (db : Backends.SQLiteBackend)
  : result (string * Base) * Backends.SQLiteBackend :=
  if search_enabled self then (Ok ("already enabled", self), db)
  else
    match Backends.create_fts_table (name self) db with
    | (Raise e, db) =>
        (Raise (ValueError ("Failed to enable search: " +:+ Backends.exn_str e)),
         db)
    | (Ok _, db) =>
        match Backends.set_config (name self +:+ "_search") "1" db with
        | (Raise e, db) =>
            (Raise (ValueError
                      ("Failed to enable search: " +:+ Backends.exn_str e)), db)
        | (Ok _, db) =>
            (Ok ("enabled",
                 mkBase (name self) true (vector_enabled self)), db)
        end
    end.

Definition disable_search (self : Base) (db : Backends.SQLiteBackend)
  : result (bool * Base) * Backends.SQLiteBackend :=
  let db := Backends.drop_tables (name self) "search" db in
  match Backends.set_config (name self +:+ "_search") "0" db with
  | (Raise e, db) =>
      (Raise (ValueError ("Failed to drop table: " +:+ Backends.exn_str e)), db)
  | (Ok _, db) =>
      (Ok (true, mkBase (name self) false (vector_enabled self)), db)
  end.

Definition drop (self : Base) (nm : string) (main_only : bool)
    (db : Backends.SQLiteBackend)
  : result (bool * Base) * Backends.SQLiteBackend :=
  if negb (String.eqb nm (name self)) then
    (Raise (AssertionError "Confirm by providing the name of the table"), db)
  else
    let db :=
      Backends.drop_tables (name self) (if main_only then "main" else "all") db
    in
    (Ok (true, mkBase (name self) false (vector_enabled self)), db).

(** The loop of [adds]: the items left, the store of dict objects, the
    backend, and the lists [_items] and [keys] so far. *)
Fixpoint adds_loop (its : list item) (h : heap) (db : Backends.SQLiteBackend)
    (_items : list (pyobj * string)) (keys : list pyobj)
  : heap * Backends.SQLiteBackend * list (pyobj * string) * list pyobj :=
  match its with
  | [] => (h, db, _items, keys)
  | it :: rest =>
      let '(k, db) := Backends.genkey 12 "" db in
      let key := VStr k in
      match it with
      | DictRef l =>
          (* data = item.copy() *)
          let data := fresh (dom h) in
          let h := <[data := h !!! l]> h in
          (* key = item.pop("key", None) or key *)
          let '(popped, d') := dict_pop (h !!! l) "key" in
          let h := <[l := d']> h in
          let key := py_or popped key in
          adds_loop rest h db
            (_items ++ [(key, json_dumps (VDict (h !!! data)))])
            (keys ++ [key])
      | Plain v =>
          adds_loop rest h db (_items ++ [(key, json_dumps v)]) (keys ++ [key])
      end
  end.

Definition adds (self : Base) (arg : adds_arg) (override : bool) (now : Z)
    (h : heap) (db : Backends.SQLiteBackend)
  : result AddsResponse.t * heap * Backends.SQLiteBackend :=
  match arg with
  | NotItems v =>
      (Ok (AddsResponse.mk [] false
             ("Expected list but got " +:+ class_repr v)), h, db)
  | Items [] => (Ok (AddsResponse.mk [] false "No items"), h, db)
  | Items its =>
      let '(h, db, _items, keys) := adds_loop its h db [] [] in
      match Backends.adds (name self) _items override now db with
      | (Raise e, db) => (Raise e, h, db)
      | (Ok res, db) =>
          (Ok (AddsResponse.mk keys (Backends.success res)
                 (default "" (Backends.error res))), h, db)
      end
  end.

Definition delete (self : Base) (key : pyobj) (db : Backends.SQLiteBackend)
  : result DeleteResponse.t * Backends.SQLiteBackend :=
  let resp := DeleteResponse.empty in
  match key with
  | VStr _ | VInt _ | VFloat _ _ =>
      if (match key with VStr "" => true | _ => false end) then
        (Ok (DeleteResponse.mk (DeleteResponse.key resp)
               (DeleteResponse.deleted resp) "Key is empty"), db)
      else
        let key := py_str key in
        match Backends.delete (name self) key db with
        | (Raise e, db) => (Raise e, db)
        | (Ok d, db) => (Ok (DeleteResponse.mk key d ""), db)
        end
  | _ =>
      (Ok (DeleteResponse.mk (DeleteResponse.key resp)
             (DeleteResponse.deleted resp) "Invalid `key` type"), db)
  end.

(** One element of the list comprehension of [fetch]. *)
Definition item_of_row (r : list pyobj) : result pyobj :=
  match r with
  | [key; data_json; created; updated] =>
      dat ← match data_json with
            | VStr s => json_loads s
            | _ => Raise (TypeError
                     ("the JSON object must be str, bytes or bytearray, not "
                      +:+ type_name data_json))
            end;
      Ok (VDict [("key", key); ("data", dat); ("created", created);
                 ("updated", updated)])
  | _ =>
      Raise (ValueError
               (if (length r <? 4)%nat then
                  "not enough values to unpack (expected 4, got "
                  +:+ NilZero.string_of_uint (Nat.to_uint (length r)) +:+ ")"
                else "too many values to unpack (expected 4)"))
  end.

(** [int(count_result[0][0])] *)
Definition first_cell (count_result : list (list pyobj)) : result Z :=
  match count_result with
  | (c :: _) :: _ => py_int c
  | _ => Raise (IndexError "list index out of range")
  end.

Definition fetch (self : Base) (filters : pyobj) (limit : Z) (order : string)
    (page : Z) (db : Backends.SQLiteBackend) : ItemsResponse.t :=
  let limit := Z.max 1 limit in
  let page := Z.max 1 page in
  let offset := (page - 1) * limit in
  if negb (match filters with
           | VList _ | VDict _ | VNone => true
           | _ => false
           end) then
    ItemsResponse.mk 0 0 0 0 []
      ("Not supported query type: " +:+ class_repr filters)
  else
    let body : result ItemsResponse.t :=
      count_result ←
        Backends.fetch_query (name self) filters true limit offset "" db;
      total_items ← first_cell count_result;
      let total_pages := (total_items + limit - 1) `div` limit in
      if total_pages <? page then
        Ok (ItemsResponse.mk page total_pages total_items 0 [] "")
      else
        results ←
          Backends.fetch_query (name self) filters false limit offset order db;
        items ← mapM item_of_row results;
        Ok (ItemsResponse.mk page total_pages total_items limit items "") in
    match body with
    | Ok r => r
    | Raise e => ItemsResponse.mk 0 0 0 0 [] (Backends.exn_str e)
    end.

End WithEnv.

(** The methods on single records, and the ones that mirror those above. *)
Module Records.

Section Methods.
Context {R : PyRepr} {B : Builtins} {E : Backends.Engine}.

Definition disable_vector (self : Base) (db : Backends.SQLiteBackend)
  : result (bool * Base) * Backends.SQLiteBackend :=
  let db := Backends.drop_tables (name self) "vector" db in
  match Backends.set_config (name self +:+ "_vector") "0" db with
  | (Raise e, db) =>
      (Raise (ValueError ("Failed to drop table: " +:+ Backends.exn_str e)), db)
  | (Ok _, db) =>
      (Ok (true, mkBase (name self) (search_enabled self) false), db)
  end.

(** [add(data, key, override=...)].  The entry [key] is popped from the
    dict that the caller handed over, before the type of [key] is looked
    at; what is stored is that dict after the pop. *)
Definition add (self : Base) (data : item) (key : pyobj) (override : bool)
    (now : Z) (h : heap) (db : Backends.SQLiteBackend)
  : result AddResponse.t * heap * Backends.SQLiteBackend :=
  let resp := AddResponse.empty in
  let '(_key, h) :=
    match data with
    | DictRef l =>
        let '(popped, d') := dict_pop (h !!! l) "key" in (popped, <[l := d']> h)
    | Plain _ => (VNone, h)
    end in
  match key with
  | VStr _ | VInt _ | VFloat _ _ | VNone =>
      (* key = str(key or _key or self.backend.genkey()) *)
      let '(k, db) :=
        if truthy key then (key, db)
        else if truthy _key then (_key, db)
        else let '(g, db) := Backends.genkey 12 "" db in (VStr g, db) in
      let key := py_str k in
      let body :=
        match data with
        | DictRef l => VDict (h !!! l)
        | Plain v => v
        end in
      match Backends.add (name self) key (json_dumps body) override now db with
      | (Ok _, db) =>
          (Ok (AddResponse.mk key data
                 (dict_set (AddResponse.kv resp) key (Obj data))
                 (AddResponse.error resp)), h, db)
      | (Raise (IntegrityError _), db) =>
          (Ok (AddResponse.mk (AddResponse.key resp) (AddResponse.data resp)
                 (AddResponse.kv resp)
                 ("Item with key '" +:+ key +:+ "' already exists")), h, db)
      | (Raise e, db) => (Raise e, h, db)
      end
  | _ =>
      (Ok (AddResponse.mk (AddResponse.key resp) (AddResponse.data resp)
             (AddResponse.kv resp) "Invalid `key` type"), h, db)
  end.

(** [get(key)]: the timestamps are written into [kv] after the record, under
    the names [created] and [updated]. *)
Definition get (self : Base) (key : pyobj) (db : Backends.SQLiteBackend)
  : result AddResponse.t :=
  let resp := AddResponse.empty in
  match key with
  | VStr _ | VInt _ | VFloat _ _ =>
      if (match key with VStr "" => true | _ => false end) then
        Ok (AddResponse.mk (AddResponse.key resp) (AddResponse.data resp)
              (AddResponse.kv resp) "Key is empty")
      else
        let key := py_str key in
        row ← Backends.get (name self) key db;
        match row with
        | None =>
            Ok (AddResponse.mk key (AddResponse.data resp)
                  (AddResponse.kv resp) "Key not found")
        | Some (row0, row1, row2, row3) =>
            dat ← json_loads row1;
            let kv := dict_set (AddResponse.kv resp) row0 (Obj (Plain dat)) in
            let kv := dict_set kv "created" (Stamp row2) in
            let kv := dict_set kv "updated" (Stamp row3) in
            Ok (AddResponse.mk row0 (Plain dat) kv (AddResponse.error resp))
        end
  | _ =>
      Ok (AddResponse.mk (AddResponse.key resp) (AddResponse.data resp)
            (AddResponse.kv resp) "Invalid `key` type")
  end.

(** [deletes(keys)] for a list or a tuple of keys; whatever the backend
    raises becomes the [error] of the response. *)
Definition deletes (self : Base) (keys : pyobj) (db : Backends.SQLiteBackend)
  : DeletesResponse.t * Backends.SQLiteBackend :=
  match keys with
  | VList l | VTuple l =>
      if negb (truthy keys) then (DeletesResponse.mk 0 "No keys provided", db)
      else
        match Backends.deletes (name self) l db with
        | (Ok n, db) => (DeletesResponse.mk n "", db)
        | (Raise e, db) => (DeletesResponse.mk 0 (Backends.exn_str e), db)
        end
  | _ =>
      (DeletesResponse.mk 0 ("Expected list but got " +:+ class_repr keys), db)
  end.

End Methods.

End Records.

End Facade.

(** ** __init__.py *)

Module Oak.

(** The [Base] objects live in a store; [_bases] maps a name to the object
    made for it. *)
Abbreviation objects := (gmap Facade.loc Facade.Base).

Record t : Type := mk { _bases : gmap string Facade.loc }.

(** [Oak(backend)] for a backend object. *)
Definition new : t := mk ∅.

Section WithEnv.
Context {R : PyRepr} {B : Builtins} {E : Backends.Engine}.

(** [Base(name)]: the object for [name], made on the first call. *)
Definition Base (self : t) (name : string) (objs : objects)
    (db : Backends.SQLiteBackend)
  : result (Facade.loc * t) * objects * Backends.SQLiteBackend :=
  match _bases self !! name with
  | None =>
      match Facade.new_Base name db with
      | (Raise e, db) => (Raise e, objs, db)
      | (Ok b, db) =>
          let l := fresh (dom objs) in
          (Ok (l, mk (<[name := l]> (_bases self))), <[l := b]> objs, db)
      end
  | Some l => (Ok (l, self), objs, db)
  end.

End WithEnv.

End Oak.

(** ** Test doubles

    An environment for running the model on concrete inputs: none of the
    values used below is a float or a container whose [repr] is taken, the
    JSON codec is a stub, keys are drawn as [k0], [k1], ... and every SELECT
    is answered with a count of three rows. *)

Module Sample.

Definition repr : PyRepr := fun _ => "<object>".

Definition builtins : Builtins :=
  {| json_dumps := fun _ => "{}";
     json_loads := fun _ => Ok (VDict []);
     int_of_str := fun _ => Raise (ValueError "invalid literal for int()") |}.

Definition engine : Backends.Engine :=
  {| Backends.VECTOR_DEPS := false;
     Backends.random_choices := fun n _ _ =>
       "k" +:+ NilZero.string_of_uint (Nat.to_uint n);
     Backends.sqlite_bind := fun _ =>
       Raise (OperationalError "unsupported type");
     Backends.sqlite_select := fun _ _ _ => Ok [[VInt 3]] |}.

(** Nothing to strip: for strings without white space at their ends. *)
Definition strip : PyStrip := fun s => s.

(** A store with no table yet. *)
Definition empty_db : Backends.SQLiteBackend :=
  Backends.mkBackend ∅ ∅ None false 0.

(** A store with the base [t] holding one row, written when the clock read
    100, and an empty [oak_conf]. *)
Definition one_row_db : Backends.SQLiteBackend :=
  Backends.mkBackend
    {[ "t" := Backends.Primary {[ "k" := Backends.mkRow "one" None 100 100 ]};
       "oak_conf" := Backends.Conf ∅ ]}
    ∅ None false 0.

End Sample.

(** The operators that the two tables accept. *)
Definition OPERATORS : list string :=
  ["eq"; "ne"; "lt"; "gt"; "lte"; "gte"; "starts"; "ends"; "range";
   "contains"; "!contains"; "in"; "!in"].

Definition is_list (v : pyobj) : bool :=
  match v with VList _ => true | _ => false end.

Definition is_sequence (v : pyobj) : bool :=
  match v with VList _ | VTuple _ => true | _ => false end.

Definition is_pair (v : pyobj) : bool :=
  match v with VList [_; _] | VTuple [_; _] => true | _ => false end.

(** The malformed inputs as the specification lists them: an operator
    outside the closed set, [range] without a pair, [in] or [!in] without a
    sequence. *)
Definition malformed_spec (op : string) (v : pyobj) : bool :=
  negb (bool_decide (op ∈ OPERATORS))
  || (String.eqb op "range" && negb (is_pair v))
  || ((String.eqb op "in" || String.eqb op "!in") && negb (is_sequence v)).

(** The inputs on which the code raises: besides the above, a null value
    with an operator other than [eq] and [ne], and [in] or [!in] with a
    value that is not a list. *)
Definition malformed (op : string) (v : pyobj) : bool :=
  negb (bool_decide (op ∈ OPERATORS))
  || (is_none v && negb (String.eqb op "eq" || String.eqb op "ne"))
  || (String.eqb op "range" && negb (is_pair v))
  || ((String.eqb op "in" || String.eqb op "!in") && negb (is_list v)).

(** The inputs on which the constructor itself raises. *)
Definition malformed_at_construction (op : string) (v : pyobj) : bool :=
  negb (bool_decide (op ∈ OPERATORS))
  || (String.eqb op "range" && negb (is_pair v)).

(** [Condition(...)] followed by [get_cond_sql()], as the loop of
    [build_condition] runs them. *)
Definition compile {R : PyRepr} (op fld : string) (v : pyobj) (col : string)
  : result (string * list pyobj) :=
  c ← Queries.new_Condition op fld v col;
  sql ← Queries.get_cond_sql c;
  mret (sql, Queries.param c).

(** The disjunction as the specification words it: every group in its own
    parentheses. *)
Definition or_of_groups_spec (groups : list string) : string :=
  String.concat " OR " (map (fun g => "(" +:+ g +:+ ")") groups).

(** How many parameters the constructor binds. *)
Definition expected_params (op : string) (v : pyobj) : nat :=
  if is_none v && (String.eqb op "eq" || String.eqb op "ne") then 0
  else if String.eqb op "range" then 2
  else 1.

(** No trigger is attached to the table [name]: neither the lexical nor the
    vector mirror follows its rows. *)
Definition no_triggers (db : Backends.SQLiteBackend) (name : string) : Prop :=
  forall tg, Backends.triggers db !! tg ≠ Some name.

(** The order of the two timestamps: every stored row was created no later
    than it was last updated, and updated no later than [now]. *)
Definition stamps_ok (now : Z) (ts : gmap string Backends.table) : Prop :=
  forall name rows k r,
    ts !! name = Some (Backends.Primary rows) -> rows !! k = Some r ->
    Backends.created r <= Backends.updated r <= now.


(** The keys that [get] and [delete] take: a string that is not empty, an
    int or a float. *)
Definition valid_get_key (key : pyobj) : bool :=
  match key with
  | VStr s => negb (String.eqb s "")
  | VInt _ | VFloat _ _ => true
  | _ => false
  end.

(** The [?] characters of a list of fragments. *)
Definition total_q (l : list string) : nat := sum_list_with count_q l.

(** A condition that can be bound: its key holds no question mark and its
    operator is neither [in] nor [!in]. *)
Definition bindable_item (item : string * pyobj) : bool :=
  (count_q item.1 =? 0)%nat
  && negb (bool_decide (nth 1 (split_dunder item.1) "" ∈ ["in"; "!in"])).

(** A filter all of whose conditions can be bound. *)
Definition bindable (conditions : pyobj) : bool :=
  match conditions with
  | VDict d => forallb bindable_item d
  | VList l | VTuple l =>
      forallb (fun g => match g with
                        | VDict d => forallb bindable_item d
                        | _ => true
                        end) l
  | _ => true
  end.

(** The words that the engine reserves, in lower case. *)
Definition SQL_KEYWORDS : list string :=
  [ "abort"; "action"; "add"; "after"; "all"; "alter"; "always"; "analyze";
    "and"; "as"; "asc"; "attach"; "autoincrement"; "before"; "begin";
    "between"; "by"; "cascade"; "case"; "cast"; "check"; "collate"; "column";
    "commit"; "conflict"; "constraint"; "create"; "cross"; "current";
    "current_date"; "current_time"; "current_timestamp"; "database";
    "default"; "deferrable"; "deferred"; "delete"; "desc"; "detach";
    "distinct"; "do"; "drop"; "each"; "else"; "end"; "escape"; "except";
    "exclude"; "exclusive"; "exists"; "explain"; "fail"; "false"; "filter";
    "first"; "following"; "for"; "foreign"; "from"; "full"; "generated";
    "glob"; "group"; "groups"; "having"; "if"; "ignore"; "immediate"; "in";
    "index"; "indexed"; "initially"; "inner"; "insert"; "instead";
    "intersect"; "into"; "is"; "isnull"; "join"; "key"; "last"; "left";
    "like"; "limit"; "main"; "match"; "materialized"; "natural"; "no"; "not";
    "nothing"; "notnull"; "null"; "nulls"; "of"; "offset"; "oid"; "on"; "or";
    "order"; "others"; "outer"; "over"; "partition"; "plan"; "pragma";
    "preceding"; "primary"; "query"; "raise"; "range"; "recursive";
    "references"; "regexp"; "reindex"; "release"; "rename"; "replace";
    "restrict"; "returning"; "right"; "rollback"; "row"; "rowid"; "rows";
    "savepoint"; "select"; "set"; "table"; "temp"; "temporary"; "then";
    "ties"; "to"; "transaction"; "trigger"; "true"; "unbounded"; "union";
    "unique"; "update"; "using"; "vacuum"; "values"; "view"; "virtual";
    "when"; "where"; "window"; "with"; "within"; "without" ].

Definition lower_letter (c : ascii) : bool :=
  let n := nat_of_ascii c in ((97 <=? n) && (n <=? 122))%nat.

Definition name_char (c : ascii) : bool :=
  let n := nat_of_ascii c in
  (lower_letter c || ((48 <=? n) && (n <=? 57)) || (n =? 95))%nat.

Fixpoint all_chars (p : ascii -> bool) (s : string) : bool :=
  match s with
  | EmptyString => true
  | String c rest => p c && all_chars p rest
  end.

(** A base name that the engine takes as a table name when it is written
    into a statement as it is, with a suffix of the library or without: a
    lower-case letter followed by lower-case letters, digits and
    underscores, at most 64 characters, none of the reserved words, and not
    beginning with the prefix that the engine keeps for itself. *)
Definition safe_name (s : string) : bool :=
  match s with
  | EmptyString => false
  | String c _ => lower_letter c
  end
  && all_chars name_char s
  && (String.length s <=? 64)%nat
  && negb (bool_decide (s ∈ SQL_KEYWORDS))
  && negb (String.prefix "sqlite" s).

(** * Properties *)

Lemma dict_get_None {A} (d : list (string * A)) (k : string) :
  dict_get d k = None <-> k ∉ d.*1.
Proof.
  induction d as [|[k' a] d IH]; simpl.
  - split; [intros _; apply not_elem_of_nil | done].
  - rewrite not_elem_of_cons. destruct (String.eqb_spec k' k) as [->|Hne].
    + split; [done | intros [? _]; done].
    + rewrite IH.
      split; [intros ?; split; [congruence | done] | intros [_ ?]; done].
Qed.

Lemma raises_is_raise {A} (r : result A) : raises r <-> is_raise r = true.
Proof.
  destruct r; simpl; split; try done.
  - intros [e' ?]; done.
  - intros _. by eexists.
Qed.

Lemma count_q_app (a b : string) :
  count_q (a +:+ b) = (count_q a + count_q b)%nat.
Proof.
  induction a as [|c a IH]; [done|].
  change (String c a +:+ b) with (String c (a +:+ b)).
  simpl. rewrite IH. lia.
Qed.

(** ** The condition compiler *)

Module QueriesSpec.
Import Queries.

Ltac elem_cases H :=
  repeat (apply elem_of_cons in H as [-> | H]);
  [.. | by apply elem_of_nil in H].

Lemma operators_keys (c : Condition) : (operators c).*1 = OPERATORS.
Proof. unfold operators. by destruct (is_json c). Qed.

Lemma unknown_operator (c : Condition) :
  operator c ∉ OPERATORS -> dict_get (operators c) (operator c) = None.
Proof. intros H. apply dict_get_None. by rewrite operators_keys. Qed.

Section WithRepr.
Context {R : PyRepr}.

Lemma new_Condition_unknown (op fld : string) (v : pyobj) (col : string) :
  op ∉ OPERATORS ->
  new_Condition op fld v col = Raise (ValueError (invalid_operator_msg op)).
Proof.
  intros H. unfold new_Condition.
  by rewrite (unknown_operator (mkCondition op fld v "" [] col) H).
Qed.

(** C6: with a null value, [eq] compiles to [lhs IS NULL] and [ne] to
    [lhs IS NOT NULL], where [lhs] is the left-hand side of the condition,
    and no parameter is bound; with any other operator a null value
    raises, at construction or when the fragment is asked for. *)
Theorem null_value_compilation (fld col : string) :
  (exists c, new_Condition "eq" fld VNone col = Ok c
             /\ param c = []
             /\ get_cond_sql c = Ok (field_expression c +:+ " IS NULL"))
  /\ (exists c, new_Condition "ne" fld VNone col = Ok c
                /\ param c = []
                /\ get_cond_sql c = Ok (field_expression c +:+ " IS NOT NULL"))
  /\ (forall op, op ≠ "eq" -> op ≠ "ne" -> raises (compile op fld VNone col)).
Proof.
  split; [|split].
  - unfold new_Condition, operators, is_json.
    destruct (is_column_query _) eqn:E; cbn; eexists; repeat split; by cbn.
  - unfold new_Condition, operators, is_json.
    destruct (is_column_query _) eqn:E; cbn; eexists; repeat split; by cbn.
  - intros op H1 H2. destruct (decide (op ∈ OPERATORS)) as [Hop|Hop].
    + unfold compile, new_Condition. elem_cases Hop; try done.
      all: unfold operators, is_json; destruct (is_column_query _) eqn:E; cbn.
      all: eexists; reflexivity.
    + unfold compile. rewrite new_Condition_unknown by done. by eexists.
Qed.

End WithRepr.

(** A null value with [lt] on the field [age] raises. *)
Lemma null_value_compilation_witness :
  raises (compile (R:=Sample.repr) "lt" "age" VNone "data").
Proof.
  apply (proj2 (proj2 (null_value_compilation (R:=Sample.repr)
                         "age" "data"))); discriminate.
Defined.

Section WithRepr7.
Context {R : PyRepr}.

(** What [get_cond_sql] raises on, for an operator of the closed set. *)
Lemma get_cond_sql_raises (c : Condition) :
  operator c ∈ OPERATORS ->
  is_raise (get_cond_sql c)
  = (is_none (value c)
     && negb (String.eqb (operator c) "eq" || String.eqb (operator c) "ne"))
    || ((String.eqb (operator c) "in" || String.eqb (operator c) "!in")
        && negb (is_list (value c))).
Proof.
  destruct c as [op fld v fe p col]. cbn [operator value]. intros Hop.
  unfold get_cond_sql, null_sql, ins_sql, operators, is_json,
    is_valid_null_query, null_operator, is_column_query.
  cbn [operator field value field_expression param column_name].
  generalize (startswith "_" fld && bool_decide (fld ∈ COLUMN_KEYS)).
  intros q. elem_cases Hop.
  all: destruct q, v; reflexivity.
Qed.

(** The constructor's last step changes nothing but [param], and raises
    only for [range]. *)
Lemma process_param_value_spec (c : Condition) :
  match process_param_value c with
  | Ok c' => exists p, c' = set_param c p
  | Raise _ =>
      String.eqb (operator c) "range" = true /\ is_pair (value c) = false
  end
  /\ is_raise (process_param_value c)
     = String.eqb (operator c) "range" && negb (is_pair (value c)).
Proof.
  destruct c as [op fld v fe p col].
  unfold process_param_value, is_valid_null_query, null_operator, handle_range.
  cbn [operator value].
  destruct (String.eqb_spec op "range") as [->|Hne].
  - cbn. destruct v as [|b|z|m e|s|[|a [|b [|c l]]]|[|a [|b [|c l]]]|d]; cbn.
    all: repeat match goal with
                | |- context [if ?b then _ else _] => destruct b
                end.
    all: split; try split; try reflexivity; try (by eexists).
  - destruct (dict_get NULL_SQL op) as [tpl|];
      [destruct (truthy (VStr tpl) && is_none v)|];
      destruct (dict_get LIKE_FORMATTERS op);
      cbv beta iota; cbn [is_raise andb]; (split; [by eexists | done]).
Qed.

Lemma is_raise_bind_ret {A B} (r : result A) (f : A -> B) :
  is_raise (a ← r; mret (f a)) = is_raise r.
Proof. by destruct r. Qed.

(** C7, as amended: the constructor raises exactly on an operator outside
    the closed set and on [range] with a value that is not a list or tuple
    of two elements; construction followed by [get_cond_sql] raises exactly
    on these, on a null value with an operator other than [eq] and [ne],
    and on [in] or [!in] with a value that is not a list. *)
Theorem condition_raises_iff_malformed (op fld : string) (v : pyobj)
    (col : string) :
  is_raise (new_Condition op fld v col) = malformed_at_construction op v
  /\ is_raise (compile op fld v col) = malformed op v.
Proof.
  destruct (decide (op ∈ OPERATORS)) as [Hop|Hop].
  - unfold compile, malformed, malformed_at_construction.
    rewrite (bool_decide_eq_true_2 _ Hop). cbn [negb orb].
    unfold new_Condition.
    set (c0 := mkCondition op fld v "" [] col).
    destruct (dict_get (operators c0) (operator c0)) eqn:Hk.
    2: { apply dict_get_None in Hk. by rewrite operators_keys in Hk. }
    cbv zeta.
    match goal with
    | |- context [process_param_value ?c] => set (c1 := c)
    end.
    assert (Hc1 : operator c1 = op /\ value c1 = v)
      by (subst c1; by destruct (is_column_query c0)).
    destruct Hc1 as [Hop1 Hv1].
    destruct (process_param_value_spec c1) as [H1 H2].
    rewrite Hop1, Hv1 in H1, H2.
    destruct (process_param_value c1) as [c'|e]; cbn [is_raise] in *.
    + destruct H1 as [p ->]. split; [done|].
      cbn [mbind result_bind].
      rewrite (is_raise_bind_ret _ (fun sql => (sql, param (set_param c1 p)))).
      rewrite get_cond_sql_raises by (cbn [operator set_param]; by rewrite Hop1).
      cbn [operator value set_param]. rewrite Hop1, Hv1, <- H2.
      by rewrite orb_false_r.
    + destruct H1 as [-> ->]. split; [done|].
      cbn. by rewrite orb_true_r.
  - unfold compile, malformed, malformed_at_construction.
    rewrite new_Condition_unknown by done.
    rewrite (bool_decide_eq_false_2 _ Hop). split; reflexivity.
Qed.

End WithRepr7.

(** C7, as stated, fails: [in] with a tuple is none of the malformed inputs
    that the specification lists, and it raises. *)
Lemma in_with_tuple_raises :
  malformed_spec "in" (VTuple [VInt 1; VInt 2]) = false
  /\ compile (R:=Sample.repr) "in" "x" (VTuple [VInt 1; VInt 2]) "data"
     = Raise (ValueError
         "in only supports lists. You might need to use `contains` and `!contains`").
Proof. split; reflexivity. Qed.

(** ** Parameters against placeholders *)

Lemma count_q_substring (n m : nat) (s : string) :
  (count_q (substring n m s) <= count_q s)%nat.
Proof.
  revert n m. induction s as [|c s IH]; intros n m.
  - by destruct n, m.
  - destruct n as [|n]; [destruct m as [|m]|]; simpl.
    + lia.
    + specialize (IH 0%nat m). lia.
    + specialize (IH n m). lia.
Qed.

Lemma count_q_placeholders {A} (plc : string) (l : list A) :
  count_q (String.concat "," (map (fun _ => plc) l))
  = (length l * count_q plc)%nat.
Proof.
  induction l as [|a [|b l] IH]; [done | simpl; lia |].
  change (count_q (plc +:+ "," +:+ String.concat "," (map (fun _ => plc) (b :: l)))
          = (length (a :: b :: l) * count_q plc)%nat).
  rewrite !count_q_app, IH. simpl. lia.
Qed.

Section WithRepr2.
Context {R : PyRepr}.

Lemma process_param_value_length (c c' : Condition) :
  process_param_value c = Ok c' ->
  length (param c') = expected_params (operator c) (value c)
  /\ exists p, c' = set_param c p.
Proof.
  destruct c as [op fld v fe p col].
  unfold process_param_value, is_valid_null_query, null_operator, handle_range,
    expected_params.
  cbn [operator value].
  destruct (String.eqb_spec op "range") as [->|Hne].
  - cbn. destruct v as [|b|z|m e|s|[|a [|b [|c l]]]|[|a [|b [|c l]]]|d]; cbn.
    all: repeat match goal with
                | |- context [if ?b then _ else _] => destruct b
                end.
    all: intros [= <-]; split; first [done | by eexists].
  - destruct (String.eqb_spec op "eq") as [->|Heq];
      [|destruct (String.eqb_spec op "ne") as [->|Hn]].
    + destruct v; cbn; intros Hc; injection Hc as <-;
        split; (done || by eexists).
    + destruct v; cbn; intros Hc; injection Hc as <-;
        split; (done || by eexists).
    + assert (dict_get NULL_SQL op = None) as ->.
      { apply dict_get_None. cbn. rewrite !not_elem_of_cons.
        repeat split; try done. apply not_elem_of_nil. }
      rewrite andb_false_r.
      destruct (dict_get LIKE_FORMATTERS op); intros [= <-];
        (split; first [done | by eexists]).
Qed.

Lemma get_cond_sql_placeholders (c : Condition) (sql : string) :
  operator c ∈ OPERATORS -> operator c ≠ "in" -> operator c ≠ "!in" ->
  get_cond_sql c = Ok sql ->
  count_q sql
  = (count_q (field_expression c)
     + expected_params (operator c) (value c))%nat.
Proof.
  destruct c as [op fld v fe p col]. cbn [operator value field_expression].
  intros Hop Hin Hnin.
  unfold get_cond_sql, null_sql, ins_sql, operators, is_json,
    is_valid_null_query, null_operator, is_column_query, expected_params.
  cbn [operator field value field_expression param column_name].
  generalize (startswith "_" fld && bool_decide (fld ∈ COLUMN_KEYS)).
  intros q. elem_cases Hop; try done.
  all: destruct q, v; cbn; intros [= <-].
  all: cbn; rewrite ?count_q_app; cbn; lia.
Qed.

End WithRepr2.

Section WithRepr2b.
Context {R : PyRepr}.

Lemma new_Condition_fields (op fld : string) (v : pyobj) (col : string)
    (c : Condition) :
  new_Condition op fld v col = Ok c ->
  op ∈ OPERATORS /\ operator c = op /\ value c = v /\ field c = fld
  /\ length (param c) = expected_params op v
  /\ (count_q fld = 0 -> count_q col = 0 -> count_q (field_expression c) = 0)%nat.
Proof.
  destruct (decide (op ∈ OPERATORS)) as [Hop|Hop];
    [|by rewrite new_Condition_unknown].
  unfold new_Condition. set (c0 := mkCondition op fld v "" [] col).
  destruct (dict_get (operators c0) (operator c0)); [|done].
  cbv zeta. intros H. split; [done|].
  destruct (is_column_query c0);
    apply process_param_value_length in H as [Hl [p ->]];
    cbn [operator value field field_expression param column_name set_param
           set_field_expression c0] in *.
  - repeat split; try done. intros Hf _.
    pose proof (count_q_substring 1 (String.length fld - 1) fld). lia.
  - repeat split; try done. intros Hf Hc.
    rewrite !count_q_app, Hc. destruct (String.eqb fld "data"); cbn; [done|].
    rewrite count_q_app, Hf. done.
Qed.

(** For every operator but [in] and [!in], a condition that compiles binds
    as many parameters as its fragment has placeholders, when the field name
    and the column name hold no question mark of their own. *)
Lemma param_count_matches (op fld : string) (v : pyobj) (col : string)
    (c : Condition) (sql : string) :
  count_q fld = 0%nat -> count_q col = 0%nat -> op ≠ "in" -> op ≠ "!in" ->
  new_Condition op fld v col = Ok c -> get_cond_sql c = Ok sql ->
  length (param c) = count_q sql.
Proof.
  intros Hf Hc Hin Hnin Hnew Hsql.
  apply new_Condition_fields in Hnew as (Hop & Ho & Hv & _ & Hl & Hfe).
  apply get_cond_sql_placeholders in Hsql; rewrite ?Ho; try done.
  rewrite Hsql, Hl, Ho, Hv, Hfe by done. done.
Qed.

(** For [in] and [!in] with a list of [n] elements the fragment has [n]
    placeholders, and the one parameter bound is the list itself. *)
Lemma in_operator_param_count (op fld : string) (l : list pyobj)
    (col : string) (c : Condition) (sql : string) :
  count_q fld = 0%nat -> count_q col = 0%nat -> op = "in" \/ op = "!in" ->
  new_Condition op fld (VList l) col = Ok c -> get_cond_sql c = Ok sql ->
  param c = [VList l] /\ count_q sql = length l.
Proof.
  intros Hf Hc Hop Hnew Hsql.
  pose proof (new_Condition_fields _ _ _ _ _ Hnew) as (_ & Ho & Hv & _ & _ & Hfe).
  specialize (Hfe Hf Hc). split.
  - revert Hnew. unfold new_Condition.
    set (c0 := mkCondition op fld (VList l) "" [] col).
    destruct (dict_get (operators c0) (operator c0)); [|done]. cbv zeta.
    destruct Hop as [-> | ->]; destruct (is_column_query c0);
      cbn; by intros [= <-].
  - destruct c as [op' fld' v' fe p col']. cbn in Ho, Hv, Hfe. subst op' v'.
    revert Hsql.
    unfold get_cond_sql, ins_sql, operators, is_json, is_column_query.
    cbn [operator field value field_expression].
    generalize (startswith "_" fld' && bool_decide (fld' ∈ COLUMN_KEYS)).
    intros q. destruct Hop as [-> | ->]; destruct q; cbn; intros [= <-].
    all: rewrite !count_q_app, count_q_placeholders, Hfe; cbn; lia.
Qed.

(** C2 at [Condition("in", "name", ["a", "b"])]: the fragment has two
    placeholders and the parameter list has one element, the list. *)
Theorem in_operator_binds_one_parameter :
  exists c,
    new_Condition "in" "name" (VList [VStr "a"; VStr "b"]) "data" = Ok c
    /\ get_cond_sql c = Ok "json_extract(data, '$.name') IN (json(?),json(?))"
    /\ count_q "json_extract(data, '$.name') IN (json(?),json(?))" = 2%nat
    /\ param c = [VList [VStr "a"; VStr "b"]]
    /\ length (param c) = 1%nat.
Proof. eexists. repeat split; reflexivity. Qed.

End WithRepr2b.

(** The condition [age > 35] binds one parameter for its one placeholder. *)
Lemma param_count_matches_witness :
  length [VInt 35]
  = count_q "CAST(json_extract(data, '$.age') as NUMERIC) > ?".
Proof.
  exact (param_count_matches (R:=Sample.repr) "gt" "age" (VInt 35) "data"
           (mkCondition "gt" "age" (VInt 35) "json_extract(data, '$.age')"
              [VInt 35] "data")
           "CAST(json_extract(data, '$.age') as NUMERIC) > ?"
           eq_refl eq_refl ltac:(discriminate) ltac:(discriminate)
           eq_refl eq_refl).
Defined.

(** ** The where-clause compiler *)

Section WithRepr8.
Context {R : PyRepr}.

Lemma build_condition_loop_spec (col : string) (items : list (string * pyobj))
    (rs : list (string * list pyobj)) (clauses : list string)
    (params : list pyobj) :
  Forall2 (fun item r => condition_of_item col item = Ok r) items rs ->
  build_condition_loop items col clauses params
  = Ok (clauses ++ rs.*1, params ++ concat rs.*2).
Proof.
  intros H. revert clauses params.
  induction H as [|item [sql p] items rs Hitem _ IH]; intros clauses params.
  - simpl. by rewrite !app_nil_r.
  - simpl. rewrite Hitem. cbn [mbind result_bind]. rewrite IH.
    by rewrite <- !app_assoc.
Qed.

Lemma build_where_loop_spec (col : string)
    (groups : list (list (string * pyobj)))
    (rs : list (string * list pyobj)) (clauses : list string)
    (params : list pyobj) :
  Forall2 (fun g r => build_condition g col = Ok r) groups rs ->
  build_where_loop (VDict <$> groups) col clauses params
  = Ok (clauses ++ rs.*1, params ++ concat rs.*2).
Proof.
  intros H. revert clauses params.
  induction H as [|g [sql p] groups rs Hg _ IH]; intros clauses params.
  - simpl. by rewrite !app_nil_r.
  - simpl. rewrite Hg. cbn [mbind result_bind]. rewrite IH.
    by rewrite <- !app_assoc.
Qed.

(** C8, as amended: a group whose conditions compile to the fragments
    [s1 .. sn] with the parameter lists [p1 .. pn] compiles to
    [s1 AND ... AND sn] with the parameters concatenated in the order of
    the keys; a list of groups that compile to [g1 .. gm] compiles to
    [(g1 OR ... OR gm)], one pair of parentheses around the whole
    disjunction and none around a group, with the parameters of the groups
    concatenated in order. *)
Theorem where_clause_shape (col : string) :
  (forall (g : list (string * pyobj)) (rs : list (string * list pyobj)),
      Forall2 (fun item r => condition_of_item col item = Ok r) g rs ->
      build_where_clause (VDict g) col
      = Ok (String.concat " AND " rs.*1, concat rs.*2))
  /\ (forall (gs : list (list (string * pyobj)))
             (rs : list (string * list pyobj)),
         Forall2 (fun g r => build_condition g col = Ok r) gs rs ->
         build_where_clause (VList (VDict <$> gs)) col
         = Ok ("(" +:+ String.concat " OR " rs.*1 +:+ ")", concat rs.*2)).
Proof.
  split.
  - intros g rs H. cbn [build_where_clause]. unfold build_condition.
    by rewrite (build_condition_loop_spec col g rs [] [] H).
  - intros gs rs H. cbn [build_where_clause].
    by rewrite (build_where_loop_spec col gs rs [] [] H).
Qed.

End WithRepr8.

(** The group [{"name__contains": "test", "age__gte": 18}]. *)
Lemma where_clause_shape_witness :
  build_where_clause (R:=Sample.repr)
    (VDict [("name__contains", VStr "test"); ("age__gte", VInt 18)]) "data"
  = Ok ("json_extract(data, '$.name') LIKE ? AND CAST(json_extract(data, '$.age') as NUMERIC) >= ?",
        [VStr "%test%"; VInt 18]).
Proof.
  apply (proj1 (where_clause_shape (R:=Sample.repr) "data")
           [("name__contains", VStr "test"); ("age__gte", VInt 18)]
           [("json_extract(data, '$.name') LIKE ?", [VStr "%test%"]);
            ("CAST(json_extract(data, '$.age') as NUMERIC) >= ?", [VInt 18])]).
  repeat constructor.
Defined.

(** C8, as stated, fails on [[{"a": 1, "b": 2}, {"c": 3}]]: the groups
    compile to [A AND B] and [C], the specification's wording gives
    [(A AND B) OR (C)], and the code returns [(A AND B OR C)]. *)
Lemma groups_are_not_wrapped :
  build_condition (R:=Sample.repr) [("a", VInt 1); ("b", VInt 2)] "data"
  = Ok ("json_extract(data, '$.a') = ? AND json_extract(data, '$.b') = ?",
        [VInt 1; VInt 2])
  /\ build_condition (R:=Sample.repr) [("c", VInt 3)] "data"
     = Ok ("json_extract(data, '$.c') = ?", [VInt 3])
  /\ or_of_groups_spec
       ["json_extract(data, '$.a') = ? AND json_extract(data, '$.b') = ?";
        "json_extract(data, '$.c') = ?"]
     = "(json_extract(data, '$.a') = ? AND json_extract(data, '$.b') = ?) OR (json_extract(data, '$.c') = ?)"
  /\ build_where_clause (R:=Sample.repr)
       (VList [VDict [("a", VInt 1); ("b", VInt 2)]; VDict [("c", VInt 3)]])
       "data"
     = Ok ("(json_extract(data, '$.a') = ? AND json_extract(data, '$.b') = ? OR json_extract(data, '$.c') = ?)",
           [VInt 1; VInt 2; VInt 3])
  /\ "(json_extract(data, '$.a') = ? AND json_extract(data, '$.b') = ? OR json_extract(data, '$.c') = ?)"
     ≠ "(json_extract(data, '$.a') = ? AND json_extract(data, '$.b') = ?) OR (json_extract(data, '$.c') = ?)".
Proof. repeat split; try reflexivity. discriminate. Qed.

(** ** The cases of [tests/test_queries.py] *)

Example test_condition_basic :
  new_Condition (R:=Sample.repr) "eq" "name" (VStr "test") "data"
  = Ok (mkCondition "eq" "name" (VStr "test") "json_extract(data, '$.name')"
          [VStr "test"] "data")
  /\ field_expression
       <$> new_Condition (R:=Sample.repr) "eq" "_key" (VStr "123") "data"
     = Ok "key".
Proof. split; reflexivity. Qed.

Example test_condition_operators :
  param <$> new_Condition (R:=Sample.repr) "contains" "name" (VStr "test") "data"
  = Ok [VStr "%test%"]
  /\ param <$> new_Condition (R:=Sample.repr) "starts" "name" (VStr "test")
                 "data"
     = Ok [VStr "test%"].
Proof. split; reflexivity. Qed.

Example test_nested_json_paths :
  field_expression
    <$> new_Condition (R:=Sample.repr) "eq" "user.profile.name" (VStr "John")
          "data"
  = Ok "json_extract(data, '$.user.profile.name')"
  /\ field_expression
       <$> new_Condition (R:=Sample.repr) "eq" "data"
             (VDict [("key", VStr "value")]) "data"
     = Ok "json_extract(data, '$')".
Proof. split; reflexivity. Qed.

Example test_build_where_clause :
  (length ∘ snd)
    <$> build_where_clause (R:=Sample.repr)
          (VDict [("name__contains", VStr "test"); ("age__gte", VInt 18);
                  ("status__in", VList [VStr "active"; VStr "pending"])])
          "data"
  = Ok 3%nat.
Proof. reflexivity. Qed.

Example test_numeric_type_casting :
  build_where_clause (R:=Sample.repr)
    (VDict [("string_number__gt", VStr "100");
            ("quantity__range", VTuple [VInt 1; VInt 10]);
            ("_key__gt", VInt 1000)])
    "data"
  = Ok ("CAST(json_extract(data, '$.string_number') as NUMERIC) > ? AND CAST(json_extract(data, '$.quantity') as NUMERIC) BETWEEN ? AND ? AND key > ?",
        [VStr "100"; VInt 1; VInt 10; VInt 1000]).
Proof. reflexivity. Qed.


(** ** Patterns of the LIKE operators *)

Section WithReprLike.
Context {R : PyRepr}.

Lemma append_empty_r (s : string) : s +:+ "" = s.
Proof.
  induction s as [|c s IH]; [done|].
  change (String c (s +:+ "") = String c s). by rewrite IH.
Qed.

(** The four operators on substrings bind one parameter, the string form of
    the value with the wildcard at its end for [starts], at its start for
    [ends] and on both sides for [contains] and [!contains]; the value
    goes in as it is, a wildcard of its own included.  The fragment is
    [lhs LIKE ?], for [!contains] it is [lhs NOT LIKE ?]. *)
Theorem like_patterns (fld col : string) (v : pyobj) :
  is_none v = false ->
  (exists c, new_Condition "starts" fld v col = Ok c
             /\ param c = [VStr (py_str v +:+ "%")]
             /\ get_cond_sql c = Ok (field_expression c +:+ " LIKE ?"))
  /\ (exists c, new_Condition "ends" fld v col = Ok c
                /\ param c = [VStr ("%" +:+ py_str v)]
                /\ get_cond_sql c = Ok (field_expression c +:+ " LIKE ?"))
  /\ (exists c, new_Condition "contains" fld v col = Ok c
                /\ param c = [VStr ("%" +:+ py_str v +:+ "%")]
                /\ get_cond_sql c = Ok (field_expression c +:+ " LIKE ?"))
  /\ (exists c, new_Condition "!contains" fld v col = Ok c
                /\ param c = [VStr ("%" +:+ py_str v +:+ "%")]
                /\ get_cond_sql c
                   = Ok (field_expression c +:+ " NOT LIKE ?")).
Proof.
  intros Hv.
  destruct (startswith "_" fld && bool_decide (fld ∈ COLUMN_KEYS)) eqn:Hq.
  all: repeat split.
  all: unfold new_Condition, operators, is_json, is_column_query;
    cbn [operator field value field_expression param column_name];
    rewrite Hq; cbn [negb dict_get JSON_OPERATORS COLUMN_OPERATORS String.eqb
                       Ascii.eqb Bool.eqb];
    unfold process_param_value, is_valid_null_query, null_operator;
    cbn [operator field value field_expression param column_name
           set_field_expression set_param dict_get NULL_SQL LIKE_FORMATTERS
           String.eqb Ascii.eqb Bool.eqb andb format1].
  all: eexists; split; [reflexivity|].
  all: cbn [param]; split; [by rewrite ?append_empty_r|].
  all: unfold get_cond_sql, operators, is_json, is_column_query;
    cbn [operator field value field_expression param column_name
           set_field_expression set_param];
    rewrite Hv, Hq; reflexivity.
Qed.

End WithReprLike.

Lemma like_patterns_witness :
  (exists c, new_Condition (R:=Sample.repr) "starts" "name" (VStr "Jo") "data"
             = Ok c
             /\ param c = [VStr (py_str (R:=Sample.repr) (VStr "Jo") +:+ "%")]
             /\ get_cond_sql c = Ok (field_expression c +:+ " LIKE ?"))
  /\ (exists c, new_Condition (R:=Sample.repr) "ends" "name" (VStr "Jo") "data"
                = Ok c
                /\ param c
                   = [VStr ("%" +:+ py_str (R:=Sample.repr) (VStr "Jo"))]
                /\ get_cond_sql c = Ok (field_expression c +:+ " LIKE ?"))
  /\ (exists c, new_Condition (R:=Sample.repr) "contains" "name" (VStr "Jo")
                  "data" = Ok c
                /\ param c
                   = [VStr ("%" +:+ py_str (R:=Sample.repr) (VStr "Jo")
                            +:+ "%")]
                /\ get_cond_sql c = Ok (field_expression c +:+ " LIKE ?"))
  /\ (exists c, new_Condition (R:=Sample.repr) "!contains" "name" (VStr "Jo")
                  "data" = Ok c
                /\ param c
                   = [VStr ("%" +:+ py_str (R:=Sample.repr) (VStr "Jo")
                            +:+ "%")]
                /\ get_cond_sql c
                   = Ok (field_expression c +:+ " NOT LIKE ?")).
Proof.
  apply (like_patterns (R:=Sample.repr) "name" "data" (VStr "Jo")).
  reflexivity.
Defined.

(** The condition [tag in ("a", "b", "c")] has three placeholders and binds
    the one list. *)
Lemma in_operator_param_count_witness :
  param (mkCondition "in" "tag" (VList [VStr "a"; VStr "b"; VStr "c"])
           "json_extract(data, '$.tag')"
           [VList [VStr "a"; VStr "b"; VStr "c"]] "data")
  = [VList [VStr "a"; VStr "b"; VStr "c"]]
  /\ count_q "json_extract(data, '$.tag') IN (json(?),json(?),json(?))"
     = length [VStr "a"; VStr "b"; VStr "c"].
Proof.
  exact (in_operator_param_count (R:=Sample.repr) "in" "tag"
           [VStr "a"; VStr "b"; VStr "c"] "data"
           (mkCondition "in" "tag" (VList [VStr "a"; VStr "b"; VStr "c"])
              "json_extract(data, '$.tag')"
              [VList [VStr "a"; VStr "b"; VStr "c"]] "data")
           "json_extract(data, '$.tag') IN (json(?),json(?),json(?))"
           eq_refl eq_refl (or_introl eq_refl) eq_refl eq_refl).
Defined.


Section WithReprVector.
Context {R : PyRepr}.

Lemma append_assoc (a b c : string) : (a +:+ b) +:+ c = a +:+ (b +:+ c).
Proof.
  induction a as [|x a IH]; [done|].
  change (String x ((a +:+ b) +:+ c) = String x (a +:+ (b +:+ c))).
  by rewrite IH.
Qed.

(** [build_vsearch] with a filter: the text has the placeholder of the
    embedding, then the placeholder of [k], then the placeholders of the
    filter, while the parameters are the embedding, then the parameters of
    the filter, then the limit.  With a filter that binds a parameter, the
    placeholder of [k] is hence bound to the first parameter of the filter
    and the limit to the last placeholder of the filter. *)
Theorem build_vsearch_parameter_order (base_name : string) (query : pyobj)
    (conditions : pyobj) (limit : Z) (order distance_f : string)
    (where_sql : string) (where_params : list pyobj) :
  order ∈ OrderVector ->
  truthy conditions = true ->
  build_where_clause conditions "tb.data" = Ok (where_sql, where_params) ->
  count_q base_name = 0%nat ->
  count_q distance_f = 0%nat ->
  exists select_to_k order_by,
    build_vsearch base_name query conditions limit order distance_f
    = Ok (select_to_k
          +:+ (if truthy (VStr where_sql) then "AND " +:+ where_sql else "")
          +:+ order_by,
          query :: where_params ++ [VInt limit])
    /\ select_to_k
       = nl +:+ "        SELECT tb.key, tb.data, tb.created, tb.updated" +:+ nl
         +:+ "        FROM " +:+ base_name +:+ " AS tb" +:+ nl
         +:+ "        INNER JOIN " +:+ base_name
         +:+ "_vec AS vb on vb.key = tb.key" +:+ nl
         +:+ "        WHERE vec_distance_" +:+ distance_f
         +:+ "(vb.embedding, ?) AND k = ?" +:+ nl +:+ "        "
    /\ count_q select_to_k = 2%nat
    /\ count_q order_by = 0%nat
    /\ (forall p ps, where_params = p :: ps ->
          (query :: where_params ++ [VInt limit]) !! 1%nat = Some p).
Proof.
  intros Ho Htr Hw Hnm Hdf. unfold build_vsearch.
  rewrite (bool_decide_eq_true_2 _ Ho). cbn [negb]. rewrite Htr, Hw.
  unfold OrderVector in Ho.
  repeat (apply elem_of_cons in Ho as [-> | Ho]);
    [..|by apply elem_of_nil in Ho].
  all: cbn [split_dunder mbind result_bind app].
  all: eexists _, _; split; [|split; [reflexivity|]].
  all: try (rewrite !append_assoc; reflexivity).
  all: split;
    [rewrite !count_q_app, Hnm, Hdf;
     repeat match goal with
       | |- context [count_q ?s] =>
           let n := eval vm_compute in (count_q s) in
           change (count_q s) with n
       end; reflexivity|].
  all: split; [|by intros p ps ->].
  all: rewrite ?count_q_app;
    repeat match goal with
      | |- context [count_q ?s] =>
          let n := eval vm_compute in (count_q s) in
          change (count_q s) with n
      end; reflexivity.
Qed.

End WithReprVector.

Lemma build_vsearch_parameter_order_witness :
  exists select_to_k order_by,
    build_vsearch (R:=Sample.repr) "docs" (VStr "e") 
      (VDict [("age__gte", VInt 18)]) 3 "distance__asc" "l2"
    = Ok (select_to_k
          +:+ (if truthy
                    (VStr "CAST(json_extract(tb.data, '$.age') as NUMERIC) >= ?")
               then "AND "
                    +:+ "CAST(json_extract(tb.data, '$.age') as NUMERIC) >= ?"
               else "")
          +:+ order_by,
          VStr "e" :: [VInt 18] ++ [VInt 3])
    /\ select_to_k
       = nl +:+ "        SELECT tb.key, tb.data, tb.created, tb.updated" +:+ nl
         +:+ "        FROM " +:+ "docs" +:+ " AS tb" +:+ nl
         +:+ "        INNER JOIN " +:+ "docs"
         +:+ "_vec AS vb on vb.key = tb.key" +:+ nl
         +:+ "        WHERE vec_distance_" +:+ "l2"
         +:+ "(vb.embedding, ?) AND k = ?" +:+ nl +:+ "        "
    /\ count_q select_to_k = 2%nat
    /\ count_q order_by = 0%nat
    /\ (forall p ps, [VInt 18] = p :: ps ->
          (VStr "e" :: [VInt 18] ++ [VInt 3]) !! 1%nat = Some p).
Proof.
  apply (build_vsearch_parameter_order (R:=Sample.repr) "docs" (VStr "e")
           (VDict [("age__gte", VInt 18)]) 3 "distance__asc" "l2"
           "CAST(json_extract(tb.data, '$.age') as NUMERIC) >= ?" [VInt 18]).
  - apply (bool_decide_unpack (_ ∈ _)). vm_compute; reflexivity.
  - reflexivity.
  - reflexivity.
  - reflexivity.
  - reflexivity.
Defined.

End QueriesSpec.

(** ** The SQLite backend *)

Module BackendsSpec.
Import Backends.

Lemma rows_of_Primary (ts : gmap string table) (name : string)
    (rows : gmap string row) :
  rows_of ts name = Ok rows <-> ts !! name = Some (Primary rows).
Proof.
  unfold rows_of. destruct (ts !! name) as [[r|f|]|]; split; try done.
  - by intros [= ->].
  - by intros [= ->].
Qed.

Section WithEngine.
Context {R : PyRepr} {E : Engine}.

(** [add] with [override=True] on a key that is present keeps the stored
    [created] and sets [updated] to the clock. *)
Lemma add_override_preserves_created (name key dat : string) (now : Z)
    (db : SQLiteBackend) (rows : gmap string row) (old : row) :
  tables db !! name = Some (Primary rows) ->
  rows !! key = Some old ->
  vec_enabled db = false ->
  exists db',
    add name key dat true now db = (Ok (), db')
    /\ get name key db' = Ok (Some (key, dat, created old, now)).
Proof.
  intros Ht Hk Hv. apply rows_of_Primary in Ht as Hr.
  unfold add, sql_select_created, sql_insert_or_replace.
  rewrite Hr. cbn [mbind result_bind]. rewrite ?Hr. cbn [mbind result_bind].
  rewrite Hk. cbn [fmap option_fmap option_map default].
  cbn [vec_enabled with_tables]. rewrite Hv.
  eexists. split; [done|].
  unfold get, rows_of. cbn [tables with_tables].
  rewrite lookup_insert_eq. cbn [mbind result_bind].
  by rewrite lookup_insert_eq.
Qed.

(** [adds] with [override=True] on a key that is present replaces the stored
    [created] by the clock. *)
Lemma adds_override_resets_created (name key dat : string) (now : Z)
    (db : SQLiteBackend) (rows : gmap string row) (old : row) :
  tables db !! name = Some (Primary rows) ->
  rows !! key = Some old ->
  vec_enabled db = false ->
  exists db',
    adds name [(VStr key, dat)] true now db
    = (Ok (mkAddsResult true 1 None), db')
    /\ get name key db' = Ok (Some (key, dat, now, now)).
Proof.
  intros Ht Hk Hv. apply rows_of_Primary in Ht as Hr.
  unfold adds, executemany_insert, bind_key, sql_insert_or_replace.
  cbn [mbind result_bind]. rewrite Hr. cbn [mbind result_bind].
  cbn [vec_enabled with_tables]. rewrite Hv.
  eexists. split; [done|].
  unfold get, rows_of. cbn [tables with_tables].
  rewrite lookup_insert_eq. cbn [mbind result_bind].
  by rewrite lookup_insert_eq.
Qed.

(** C1 at a record inserted at time 100 and replaced at time 200: through
    [add] the stored [created] stays 100, through [adds] it becomes 200. *)
Theorem batch_override_loses_created :
  exists db1 db2 db2',
    add "t" "k" "one" false 100 (initialize "t" Sample.empty_db) = (Ok (), db1)
    /\ get "t" "k" db1 = Ok (Some ("k", "one", 100, 100))
    /\ add "t" "k" "two" true 200 db1 = (Ok (), db2)
    /\ get "t" "k" db2 = Ok (Some ("k", "two", 100, 200))
    /\ adds "t" [(VStr "k", "two")] true 200 db1
       = (Ok (mkAddsResult true 1 None), db2')
    /\ get "t" "k" db2' = Ok (Some ("k", "two", 200, 200)).
Proof.
  do 3 eexists. repeat split; vm_compute; reflexivity.
Qed.

End WithEngine.


(** *** Single rows: insert, lookup, delete *)

(** [add] followed by [get]: when the table exists, without triggers, and
    the key is free or [override] is set, the row read back has the data
    just written, the [created] of the row it replaces (the clock for a new
    key) and the clock as [updated]; the other rows and the other tables are
    as before. *)
Lemma add_then_get (name key dat : string) (override : bool) (now : Z)
    (db : SQLiteBackend) (rows : gmap string row) :
  tables db !! name = Some (Primary rows) ->
  no_triggers db name ->
  vec_enabled db = false ->
  (override = false -> rows !! key = None) ->
  exists db',
    add name key dat override now db = (Ok (), db')
    /\ get name key db'
       = Ok (Some (key, dat, default now (created <$> rows !! key), now))
    /\ (forall k, k ≠ key -> get name k db' = get name k db)
    /\ (forall t, t ≠ name -> tables db' !! t = tables db !! t).
Proof.
  intros Ht _ Hv Hfree. apply rows_of_Primary in Ht as Hr.
  assert (Hget : forall (cr : Z) k,
    get name k (with_tables db
                  (<[name := Primary (<[key := mkRow dat None cr now]> rows)]>
                     (tables db)))
    = if decide (k = key) then Ok (Some (key, dat, cr, now))
      else get name k db).
  { intros cr k. unfold get, rows_of. cbn [tables with_tables].
    rewrite lookup_insert_eq, Ht. cbn [mbind result_bind].
    destruct (decide (k = key)) as [->|Hne].
    - by rewrite lookup_insert_eq.
    - by rewrite lookup_insert_ne. }
  unfold add, sql_select_created, sql_insert_or_replace, sql_insert.
  rewrite Hr. cbn [mbind result_bind]. rewrite ?Hr. cbn [mbind result_bind].
  destruct override.
  - cbn [vec_enabled with_tables]. rewrite Hv. eexists. split; [done|].
    split; [|split].
    + rewrite Hget. by rewrite decide_True.
    + intros k Hk. rewrite Hget. by rewrite decide_False.
    + intros t Hne. cbn [tables with_tables]. by rewrite lookup_insert_ne.
  - rewrite (Hfree eq_refl). cbn [vec_enabled with_tables]. rewrite Hv.
    eexists. split; [done|]. split; [|split].
    + rewrite Hget. by rewrite decide_True.
    + intros k Hk. rewrite Hget. by rewrite decide_False.
    + intros t Hne. cbn [tables with_tables]. by rewrite lookup_insert_ne.
Qed.

(** [delete] on a table without triggers answers whether the key was
    present; afterwards the key is absent, and the other rows and the other
    tables are as before. *)
Lemma delete_effect (name key : string) (db : SQLiteBackend)
    (rows : gmap string row) :
  tables db !! name = Some (Primary rows) ->
  no_triggers db name ->
  exists db',
    delete name key db = (Ok (bool_decide (is_Some (rows !! key))), db')
    /\ get name key db' = Ok None
    /\ (forall k, k ≠ key -> get name k db' = get name k db)
    /\ (forall t, t ≠ name -> tables db' !! t = tables db !! t).
Proof.
  intros Ht _. apply rows_of_Primary in Ht as Hr.
  unfold delete. rewrite Hr. eexists. split; [|split; [|split]].
  - f_equal. f_equal. destruct (rows !! key); by cbn.
  - unfold get, rows_of. cbn [tables with_tables].
    rewrite lookup_insert_eq. cbn [mbind result_bind].
    by rewrite lookup_delete_eq.
  - intros k Hk. unfold get, rows_of. cbn [tables with_tables].
    rewrite lookup_insert_eq, Ht. cbn [mbind result_bind].
    by rewrite lookup_delete_ne.
  - intros t Hne. cbn [tables with_tables]. by rewrite lookup_insert_ne.
Qed.


(** *** The schema and the flags *)

(** For a base name that the engine takes as a table name, [initialize]
    creates the base's table and [oak_conf] when they are absent, keeps
    every table that exists with its contents, and doing it twice is doing
    it once. *)
Lemma initialize_effect (name : string) (db : SQLiteBackend) :
  safe_name name = true ->
  is_Some (tables (initialize name db) !! name)
  /\ is_Some (tables (initialize name db) !! "oak_conf")
  /\ (forall t x, tables db !! t = Some x ->
        tables (initialize name db) !! t = Some x)
  /\ (forall t, t ≠ name -> t ≠ "oak_conf" ->
        tables (initialize name db) !! t = tables db !! t)
  /\ triggers (initialize name db) = triggers db
  /\ initialize name (initialize name db) = initialize name db.
Proof.
  intros _.
  assert (Hc : forall n t d,
    (forall u x, tables d !! u = Some x ->
       tables (sql_create_table n t d) !! u = Some x)
    /\ is_Some (tables (sql_create_table n t d) !! n)
    /\ (forall u, u ≠ n -> tables (sql_create_table n t d) !! u = tables d !! u)
    /\ triggers (sql_create_table n t d) = triggers d
    /\ (is_Some (tables d !! n) -> sql_create_table n t d = d)).
  { intros n t d. unfold sql_create_table.
    destruct (tables d !! n) as [y|] eqn:Hn.
    - repeat split; first [done | by rewrite Hn].
    - cbn [tables with_tables triggers]. repeat split.
      + intros u x Hu. rewrite lookup_insert_ne; [done|]. congruence.
      + by rewrite lookup_insert_eq.
      + intros u Hu. by rewrite lookup_insert_ne.
      + by intros [? [=]]. }
  unfold initialize.
  set (d1 := sql_create_table name (Primary ∅) db).
  destruct (Hc name (Primary ∅) db) as (Hk1 & Hs1 & Ho1 & Ht1 & _).
  destruct (Hc "oak_conf" (Conf ∅) d1) as (Hk2 & Hs2 & Ho2 & Ht2 & _).
  fold d1 in Hk1, Hs1, Ho1, Ht1.
  split; [|split; [|split; [|split; [|split]]]].
  - destruct Hs1 as [x Hx]. exists x. by apply Hk2.
  - done.
  - intros t x Hx. by apply Hk2, Hk1.
  - intros t H1 H2. by rewrite Ho2, Ho1.
  - by rewrite Ht2, Ht1.
  - set (d2 := sql_create_table "oak_conf" (Conf ∅) d1).
    assert (is_Some (tables d2 !! name)) as Hn
      by (destruct Hs1 as [x Hx]; exists x; by apply Hk2).
    rewrite (proj2 (proj2 (proj2 (proj2 (Hc name (Primary ∅) d2)))) Hn).
    by rewrite (proj2 (proj2 (proj2 (proj2 (Hc "oak_conf" (Conf ∅) d2)))) Hs2).
Qed.

(** [set_config] followed by [get_configs]: the flag reads back, and the
    other flags are as before. *)
Lemma set_config_then_get (key val nm : string) (db : SQLiteBackend)
    (flags : gmap string string) :
  tables db !! "oak_conf" = Some (Conf flags) ->
  exists db',
    set_config key val db = (Ok (), db')
    /\ get_configs nm db' = Ok (<[key := val]> flags)
    /\ (forall t, t ≠ "oak_conf" -> tables db' !! t = tables db !! t).
Proof.
  intros H. unfold set_config. rewrite H. eexists. split; [done|]. split.
  - unfold get_configs. cbn [tables with_tables]. by rewrite lookup_insert_eq.
  - intros t Ht. cbn [tables with_tables]. by rewrite lookup_insert_ne.
Qed.


(** *** The lemmas above at the one-row sample store *)

Lemma add_then_get_witness :
  exists db',
    add "t" "j" "two" false 200 Sample.one_row_db = (Ok (), db')
    /\ get "t" "j" db'
       = Ok (Some ("j", "two",
                   default 200
                     (created <$> ({[ "k" := mkRow "one" None 100 100 ]}
                                     : gmap string row) !! "j"), 200))
    /\ (forall k, k ≠ "j" -> get "t" k db' = get "t" k Sample.one_row_db)
    /\ (forall t, t ≠ "t" ->
          tables db' !! t = tables Sample.one_row_db !! t).
Proof.
  apply (add_then_get "t" "j" "two" false 200 Sample.one_row_db
           {[ "k" := mkRow "one" None 100 100 ]}).
  - vm_compute; reflexivity.
  - intros tg. vm_compute. discriminate.
  - reflexivity.
  - intros _. vm_compute; reflexivity.
Defined.

Lemma delete_effect_witness :
  exists db',
    delete "t" "k" Sample.one_row_db
    = (Ok (bool_decide
             (is_Some (({[ "k" := mkRow "one" None 100 100 ]}
                          : gmap string row) !! "k"))), db')
    /\ get "t" "k" db' = Ok None
    /\ (forall k, k ≠ "k" -> get "t" k db' = get "t" k Sample.one_row_db)
    /\ (forall t, t ≠ "t" ->
          tables db' !! t = tables Sample.one_row_db !! t).
Proof.
  apply (delete_effect "t" "k" Sample.one_row_db
           {[ "k" := mkRow "one" None 100 100 ]}).
  - vm_compute; reflexivity.
  - intros tg. vm_compute. discriminate.
Defined.

Lemma initialize_effect_witness :
  is_Some (tables (initialize "t" Sample.empty_db) !! "t")
  /\ is_Some (tables (initialize "t" Sample.empty_db) !! "oak_conf")
  /\ (forall t x, tables Sample.empty_db !! t = Some x ->
        tables (initialize "t" Sample.empty_db) !! t = Some x)
  /\ (forall t, t ≠ "t" -> t ≠ "oak_conf" ->
        tables (initialize "t" Sample.empty_db) !! t
        = tables Sample.empty_db !! t)
  /\ triggers (initialize "t" Sample.empty_db) = triggers Sample.empty_db
  /\ initialize "t" (initialize "t" Sample.empty_db)
     = initialize "t" Sample.empty_db.
Proof.
  apply (initialize_effect "t" Sample.empty_db).
  vm_compute; reflexivity.
Defined.

Lemma set_config_then_get_witness :
  exists db',
    set_config "t_search" "1" Sample.one_row_db = (Ok (), db')
    /\ get_configs "t" db' = Ok (<["t_search" := "1"]> ∅)
    /\ (forall t, t ≠ "oak_conf" ->
          tables db' !! t = tables Sample.one_row_db !! t).
Proof.
  apply (set_config_then_get "t_search" "1" "t" Sample.one_row_db ∅).
  vm_compute; reflexivity.
Defined.


(** *** Batches *)


Section Batch.
Context {R : PyRepr} {E : Engine}.

(** The rows a batch writes at clock [now]. *)
Lemma executemany_insert_fresh (name : string) (now : Z)
    (items : list (string * string)) :
  forall (ts : gmap string table) (rows : gmap string row),
  ts !! name = Some (Primary rows) ->
  NoDup items.*1 ->
  (forall k, k ∈ items.*1 -> rows !! k = None) ->
  executemany_insert false name (prod_map VStr id <$> items) now ts
  = Ok (<[name :=
            Primary (list_to_map
                       (prod_map id (fun d => mkRow d None now now) <$> items)
                     ∪ rows)]> ts).
Proof.
  induction items as [|[k d] items IH]; intros ts rows Ht Hnd Hfresh.
  - cbn. rewrite (left_id_L ∅ (∪)). by rewrite insert_id.
  - rewrite fmap_cons.
    cbn [prod_map fst snd id executemany_insert bind_key].
    cbn [mbind result_bind]. unfold sql_insert.
    apply rows_of_Primary in Ht as Hr. rewrite Hr. cbn [mbind result_bind].
    rewrite (Hfresh k) by (cbn; left).
    cbn in Hnd. apply NoDup_cons in Hnd as [Hk Hnd].
    cbn [mbind result_bind].
    rewrite (IH _ (<[k := mkRow d None now now]> rows)).
    + rewrite insert_insert_eq. do 3 f_equal.
      rewrite fmap_cons. cbn [prod_map fst snd id]. rewrite list_to_map_cons.
      rewrite <- insert_union_l. rewrite insert_union_r; [done|].
      apply not_elem_of_list_to_map_1.
      by rewrite <- list_fmap_compose.
    + by rewrite lookup_insert_eq.
    + done.
    + intros k' Hk'. rewrite lookup_insert_ne; [|by intros ->].
      apply Hfresh. cbn. by right.
Qed.

Lemma executemany_insert_clash (name : string) (now : Z)
    (items : list (string * string)) :
  forall (ts : gmap string table) (rows : gmap string row),
  ts !! name = Some (Primary rows) ->
  ~ (NoDup items.*1 /\ forall k, k ∈ items.*1 -> rows !! k = None) ->
  executemany_insert false name (prod_map VStr id <$> items) now ts
  = Raise (IntegrityError ("UNIQUE constraint failed: " +:+ name +:+ ".key")).
Proof.
  induction items as [|[k d] items IH]; intros ts rows Ht Hbad.
  - exfalso. apply Hbad. split; [constructor|]. intros k Hk. by inversion Hk.
  - rewrite fmap_cons.
    cbn [prod_map fst snd id executemany_insert bind_key].
    cbn [mbind result_bind]. unfold sql_insert.
    apply rows_of_Primary in Ht as Hr. rewrite Hr. cbn [mbind result_bind].
    destruct (rows !! k) as [r|] eqn:Hk; [done|].
    cbn [mbind result_bind].
    rewrite (IH _ (<[k := mkRow d None now now]> rows)); [done| |].
    + by rewrite lookup_insert_eq.
    + intros [Hnd Hfresh]. apply Hbad. cbn.
      assert (k ∉ items.*1) as Hnotin.
      { intros Hin. specialize (Hfresh k Hin).
        by rewrite lookup_insert_eq in Hfresh. }
      split; [by constructor|].
      intros k' [->|Hin]%elem_of_cons; [done|].
      specialize (Hfresh k' Hin).
      rewrite lookup_insert_ne in Hfresh; [done|]. by intros ->.
Qed.

(** [adds] without [override], string keys, a table without triggers: the
    batch goes through when the keys are pairwise distinct and none is in
    the table; then it reports its length, each record reads back with its
    data and with [created] equal to [updated], and the other rows are as
    before.  Nothing is said of the value of the timestamps: the engine
    reads the clock for each row of a batch. *)
Lemma adds_fresh_batch (name : string) (items : list (string * string))
    (now : Z) (db : SQLiteBackend) (rows : gmap string row) :
  tables db !! name = Some (Primary rows) ->
  no_triggers db name ->
  vec_enabled db = false ->
  NoDup items.*1 ->
  (forall k, k ∈ items.*1 -> rows !! k = None) ->
  exists db',
    adds name (prod_map VStr id <$> items) false now db
    = (Ok (mkAddsResult true (Z.of_nat (length items)) None), db')
    /\ (forall k d, (k, d) ∈ items ->
          exists c, get name k db' = Ok (Some (k, d, c, c)))
    /\ (forall k, k ∉ items.*1 -> get name k db' = get name k db)
    /\ (forall t, t ≠ name -> tables db' !! t = tables db !! t).
Proof.
  intros Ht _ Hv Hnd Hfresh. unfold adds.
  rewrite (executemany_insert_fresh name now items _ rows Ht Hnd Hfresh).
  cbn [vec_enabled with_tables]. rewrite Hv. rewrite length_fmap.
  eexists. split; [done|].
  set (new := list_to_map
                (prod_map id (fun d => mkRow d None now now) <$> items)
              : gmap string row).
  assert (Hget : forall k,
    get name k (with_tables db (<[name := Primary (new ∪ rows)]> (tables db)))
    = Ok ((fun r => (k, data r, created r, updated r))
            <$> (new ∪ rows) !! k)).
  { intros k. unfold get, rows_of. cbn [tables with_tables].
    by rewrite lookup_insert_eq. }
  split; [|split].
  - intros k d Hin. exists now. rewrite Hget.
    assert (new !! k = Some (mkRow d None now now)) as Hk.
    { apply elem_of_list_to_map.
      - by rewrite <- list_fmap_compose.
      - apply (list_elem_of_fmap_2
                 (prod_map id (fun d => mkRow d None now now)) _ _ Hin). }
    by rewrite (lookup_union_Some_l _ _ _ _ Hk).
  - intros k Hk. rewrite Hget. rewrite lookup_union_r.
    + unfold get. apply rows_of_Primary in Ht. by rewrite Ht.
    + apply not_elem_of_list_to_map_1. by rewrite <- list_fmap_compose.
  - intros t Hne. cbn [tables with_tables]. by rewrite lookup_insert_ne.
Qed.

(** [adds] without [override], string keys, a table without triggers: when
    a key is in the table already or occurs twice in the batch, the result
    reports the failure with no row affected, and the store is the one
    before the call: no record of the batch is written. *)
Lemma adds_clash_writes_nothing (name : string)
    (items : list (string * string)) (now : Z) (db : SQLiteBackend)
    (rows : gmap string row) :
  tables db !! name = Some (Primary rows) ->
  no_triggers db name ->
  ~ (NoDup items.*1 /\ forall k, k ∈ items.*1 -> rows !! k = None) ->
  adds name (prod_map VStr id <$> items) false now db
  = (Ok (mkAddsResult false 0
           (Some ("UNIQUE constraint failed: " +:+ name +:+ ".key"))), db).
Proof.
  intros Ht _ Hbad. unfold adds.
  by rewrite (executemany_insert_clash name now items _ rows Ht Hbad).
Qed.

End Batch.

Lemma adds_fresh_batch_witness :
  exists db',
    adds (R:=Sample.repr) (E:=Sample.engine) "t"
      (prod_map VStr id <$> [("a", "1"); ("b", "2")]) false 200
      Sample.one_row_db
    = (Ok (mkAddsResult true
             (Z.of_nat (length [("a", "1"); ("b", "2")])) None), db')
    /\ (forall k d, (k, d) ∈ [("a", "1"); ("b", "2")] ->
          exists c, get "t" k db' = Ok (Some (k, d, c, c)))
    /\ (forall k, k ∉ [("a", "1"); ("b", "2")].*1 ->
          get "t" k db' = get "t" k Sample.one_row_db)
    /\ (forall t, t ≠ "t" ->
          tables db' !! t = tables Sample.one_row_db !! t).
Proof.
  apply (adds_fresh_batch (R:=Sample.repr) (E:=Sample.engine) "t"
           [("a", "1"); ("b", "2")] 200 Sample.one_row_db
           {[ "k" := mkRow "one" None 100 100 ]}).
  - vm_compute; reflexivity.
  - intros tg. vm_compute. discriminate.
  - reflexivity.
  - apply (bool_decide_unpack (NoDup _)). vm_compute; reflexivity.
  - intros k Hk. cbn in Hk.
    apply elem_of_cons in Hk as [->|Hk]; [vm_compute; reflexivity|].
    apply elem_of_cons in Hk as [->|Hk]; [vm_compute; reflexivity|].
    by apply elem_of_nil in Hk.
Defined.

Lemma adds_clash_writes_nothing_witness :
  adds (R:=Sample.repr) (E:=Sample.engine) "t"
    (prod_map VStr id <$> [("a", "1"); ("k", "2")]) false 200
    Sample.one_row_db
  = (Ok (mkAddsResult false 0
           (Some ("UNIQUE constraint failed: " +:+ "t" +:+ ".key"))),
     Sample.one_row_db).
Proof.
  apply (adds_clash_writes_nothing (R:=Sample.repr) (E:=Sample.engine) "t"
           [("a", "1"); ("k", "2")] 200 Sample.one_row_db
           {[ "k" := mkRow "one" None 100 100 ]}).
  - vm_compute; reflexivity.
  - intros tg. vm_compute. discriminate.
  - intros [_ H]. specialize (H "k"). 
    assert (("k" : string) ∈ [("a", "1"); ("k", "2")].*1) as Hin
      by (cbn; right; left).
    specialize (H Hin). vm_compute in H. discriminate H.
Defined.


Section Deletes.
Context {E : Engine}.

Lemma mapM_bind_key_str (keys : list string) :
  mapM bind_key (VStr <$> keys) = Ok keys.
Proof.
  induction keys as [|k keys IH]; [done|].
  rewrite fmap_cons. cbn [mapM bind_key mbind result_bind].
  rewrite IH. done.
Qed.

Lemma foldr_delete_filter (rows : gmap string row) (keys : list string) :
  foldr base.delete rows keys = filter (fun kv => ¬ kv.1 ∈ keys) rows.
Proof.
  induction keys as [|k keys IH]; cbn [foldr].
  - symmetry. apply map_filter_id. intros i x _. apply not_elem_of_nil.
  - rewrite IH. apply map_eq. intros i. apply option_eq. intros x.
    rewrite lookup_delete_Some, !map_lookup_filter_Some, not_elem_of_cons.
    cbn [fst]. intuition congruence.
Qed.

(** What [deletes] does to the rows, for string keys. *)
Lemma deletes_rows (name : string) (keys : list string)
    (db : SQLiteBackend) (rows : gmap string row) :
  tables db !! name = Some (Primary rows) ->
  Z.of_nat (length keys) <= max_variable_number ->
  deletes name (VStr <$> keys) db
  = (Ok (Z.of_nat (size (filter (fun kv => kv.1 ∈ keys) rows))),
     with_tables db
       (<[name := Primary (filter (fun kv => ¬ kv.1 ∈ keys) rows)]>
          (tables db))).
Proof.
  intros Ht Hlen. apply rows_of_Primary in Ht as Hr.
  unfold deletes. rewrite length_fmap, (proj2 (Z.ltb_ge _ _) Hlen), Hr.
  rewrite mapM_bind_key_str, foldr_delete_filter.
  do 3 f_equal.
  rewrite <- (map_filter_union_complement (fun kv => kv.1 ∈ keys) rows)
    at 1.
  rewrite map_size_disj_union by apply map_disjoint_filter_complement.
  lia.
Qed.

Lemma get_without_keys (name : string) (keys : list string)
    (db : SQLiteBackend) (rows : gmap string row) (k : string) :
  tables db !! name = Some (Primary rows) ->
  get name k
    (with_tables db
       (<[name := Primary (filter (fun kv => ¬ kv.1 ∈ keys) rows)]>
          (tables db)))
  = if decide (k ∈ keys) then Ok None else get name k db.
Proof.
  intros Ht. unfold get, rows_of. cbn [tables with_tables].
  rewrite lookup_insert_eq, Ht. cbn [mbind result_bind].
  destruct (decide (k ∈ keys)) as [Hk|Hk].
  - rewrite (proj2 (map_lookup_filter_None _ _ k)); [done|].
    right. intros x _ Hn. by apply Hn.
  - do 2 f_equal. apply option_eq. intros x.
    rewrite map_lookup_filter_Some. cbn [fst]. tauto.
Qed.

(** [deletes] with string keys, no more than the engine's limit, on a
    table without triggers: it answers the number of rows whose key is
    among [keys]; afterwards none of these keys is in the table, and the
    other rows and the other tables are as before. *)
Lemma deletes_effect (name : string) (keys : list string)
    (db : SQLiteBackend) (rows : gmap string row) :
  tables db !! name = Some (Primary rows) ->
  no_triggers db name ->
  Z.of_nat (length keys) <= max_variable_number ->
  exists db',
    deletes name (VStr <$> keys) db
    = (Ok (Z.of_nat (size (filter (fun kv => kv.1 ∈ keys) rows))), db')
    /\ (forall k, k ∈ keys -> get name k db' = Ok None)
    /\ (forall k, k ∉ keys -> get name k db' = get name k db)
    /\ (forall t, t ≠ name -> tables db' !! t = tables db !! t).
Proof.
  intros Ht _ Hlen. rewrite (deletes_rows name keys db rows Ht Hlen).
  eexists. split; [done|]. split; [|split].
  - intros k Hk. rewrite (get_without_keys name keys db rows k Ht).
    by rewrite decide_True.
  - intros k Hk. rewrite (get_without_keys name keys db rows k Ht).
    by rewrite decide_False.
  - intros t Hne. cbn [tables with_tables]. by rewrite lookup_insert_ne.
Qed.

End Deletes.

Lemma deletes_effect_witness :
  exists db',
    deletes (E:=Sample.engine) "t" (VStr <$> ["k"; "z"]) Sample.one_row_db
    = (Ok (Z.of_nat
             (size (filter (fun kv => kv.1 ∈ ["k"; "z"])
                      ({[ "k" := mkRow "one" None 100 100 ]}
                         : gmap string row)))), db')
    /\ (forall k, k ∈ ["k"; "z"] -> get "t" k db' = Ok None)
    /\ (forall k, k ∉ ["k"; "z"] ->
          get "t" k db' = get "t" k Sample.one_row_db)
    /\ (forall t, t ≠ "t" ->
          tables db' !! t = tables Sample.one_row_db !! t).
Proof.
  apply (deletes_effect (E:=Sample.engine) "t" ["k"; "z"] Sample.one_row_db
           {[ "k" := mkRow "one" None 100 100 ]}).
  - vm_compute; reflexivity.
  - intros tg. vm_compute. discriminate.
  - vm_compute. discriminate.
Defined.


(** *** The timestamps *)


Section Stamps.
Context {R : PyRepr} {E : Engine}.

Lemma stamps_ok_mono (t0 now : Z) (ts : gmap string table) :
  stamps_ok t0 ts -> t0 <= now -> stamps_ok now ts.
Proof.
  intros H Hle name rows k r Ht Hk. specialize (H name rows k r Ht Hk). lia.
Qed.

Lemma stamps_ok_insert (now cr : Z) (ts : gmap string table) (name key : string)
    (rows : gmap string row) (dat : string) (emb : option string) :
  stamps_ok now ts -> ts !! name = Some (Primary rows) -> cr <= now ->
  stamps_ok now (<[name := Primary (<[key := mkRow dat emb cr now]> rows)]> ts).
Proof.
  intros H Ht Hcr n rs k r Hn Hk.
  destruct (decide (n = name)) as [->|Hne].
  - rewrite lookup_insert_eq in Hn. injection Hn as <-.
    destruct (decide (k = key)) as [->|Hk'].
    + rewrite lookup_insert_eq in Hk. injection Hk as <-. cbn. lia.
    + rewrite lookup_insert_ne in Hk by done. by apply (H name rows k r).
  - rewrite lookup_insert_ne in Hn by done. by apply (H n rs k r).
Qed.

Lemma stamps_ok_sql_insert (now : Z) (ts ts' : gmap string table)
    (name key dat : string) :
  stamps_ok now ts -> sql_insert name key dat now now ts = Ok ts' ->
  stamps_ok now ts'.
Proof.
  intros H. unfold sql_insert.
  destruct (rows_of ts name) as [rows|e] eqn:Hr; [|done].
  apply rows_of_Primary in Hr. cbn [mbind result_bind].
  destruct (rows !! key); [done|]. intros [= <-].
  apply stamps_ok_insert; [done | done | lia].
Qed.

Lemma stamps_ok_sql_replace (now cr : Z) (ts ts' : gmap string table)
    (name key dat : string) :
  stamps_ok now ts -> cr <= now ->
  sql_insert_or_replace name key dat cr now ts = Ok ts' ->
  stamps_ok now ts'.
Proof.
  intros H Hcr. unfold sql_insert_or_replace.
  destruct (rows_of ts name) as [rows|e] eqn:Hr; [|done].
  apply rows_of_Primary in Hr. cbn [mbind result_bind]. intros [= <-].
  by apply stamps_ok_insert.
Qed.

Lemma stamps_ok_update_embedding (now : Z) (ts ts' : gmap string table)
    (name key emb : string) :
  stamps_ok now ts -> sql_update_embedding name key emb ts = Ok ts' ->
  stamps_ok now ts'.
Proof.
  intros H. unfold sql_update_embedding.
  destruct (rows_of ts name) as [rows|e] eqn:Hr; [|done].
  apply rows_of_Primary in Hr. cbn [mbind result_bind]. intros [= <-].
  intros n rs k r Hn Hk.
  destruct (decide (n = name)) as [->|Hne].
  - rewrite lookup_insert_eq in Hn. injection Hn as <-.
    apply lookup_alter_Some in Hk as [(_ & x & Hx & ->)|[_ Hk]].
    + cbn. by apply (H name rows k x).
    + by apply (H name rows k r).
  - rewrite lookup_insert_ne in Hn by done. by apply (H n rs k r).
Qed.

Lemma stamps_ok_executemany_update (now : Z) (name : string)
    (items : list (string * string)) :
  forall ts ts', stamps_ok now ts ->
  executemany_update_embedding name items ts = Ok ts' -> stamps_ok now ts'.
Proof.
  induction items as [|[emb key] items IH]; intros ts ts' H; cbn.
  - by intros [= <-].
  - destruct (sql_update_embedding name key emb ts) as [ts1|e] eqn:H1; [|done].
    cbn [mbind result_bind]. apply IH.
    by apply (stamps_ok_update_embedding now ts ts1 name key emb).
Qed.

Lemma stamps_ok_executemany_insert (now : Z) (override : bool) (name : string)
    (items : list (pyobj * string)) :
  forall ts ts', stamps_ok now ts ->
  executemany_insert override name items now ts = Ok ts' -> stamps_ok now ts'.
Proof.
  induction items as [|[k dat] items IH]; intros ts ts' H; cbn.
  - by intros [= <-].
  - destruct (bind_key k) as [key|e]; [|done]. cbn [mbind result_bind].
    destruct override.
    + destruct (sql_insert_or_replace name key dat now now ts)
        as [ts1|e] eqn:H1; [|done].
      cbn [mbind result_bind]. apply IH.
      apply (stamps_ok_sql_replace now now ts ts1 name key dat); [done|lia|done].
    + destruct (sql_insert name key dat now now ts) as [ts1|e] eqn:H1; [|done].
      cbn [mbind result_bind]. apply IH.
      by apply (stamps_ok_sql_insert now ts ts1 name key dat).
Qed.

Lemma stamps_ok_delete (now : Z) (ts : gmap string table) (name : string)
    (rows : gmap string row) (keys : list string) :
  stamps_ok now ts -> ts !! name = Some (Primary rows) ->
  stamps_ok now (<[name := Primary (foldr base.delete rows keys)]> ts).
Proof.
  intros H Ht n rs k r Hn Hk.
  destruct (decide (n = name)) as [->|Hne].
  - rewrite lookup_insert_eq in Hn. injection Hn as <-.
    apply (H name rows k r Ht).
    clear -Hk. induction keys as [|k' keys IH]; [done|].
    cbn [foldr] in Hk. apply lookup_delete_Some in Hk as [_ Hk]. by apply IH.
  - rewrite lookup_insert_ne in Hn by done. by apply (H n rs k r).
Qed.

(** The timestamps stay ordered: when every stored row has
    [created <= updated <= t0] and the clock has not gone back since, the
    same holds at the new clock after [add], [adds], [delete] and
    [deletes], whatever their arguments and whether they succeed or
    fail. *)
Theorem writes_keep_stamps_ordered (t0 now : Z) (db : SQLiteBackend)
    (name key dat : string) (override : bool)
    (items : list (pyobj * string)) (keys : list pyobj) :
  stamps_ok t0 (tables db) -> t0 <= now ->
  stamps_ok now (tables (add name key dat override now db).2)
  /\ stamps_ok now (tables (adds name items override now db).2)
  /\ stamps_ok now (tables (delete name key db).2)
  /\ stamps_ok now (tables (deletes name keys db).2).
Proof.
  intros H0 Hle. assert (H := stamps_ok_mono t0 now _ H0 Hle).
  split; [|split; [|split]].
  - unfold add.
    set (r := if override then _ else _).
    assert (forall ts, r = Ok ts -> stamps_ok now ts) as Hr.
    { subst r. intros ts. destruct override.
      - unfold sql_select_created.
        destruct (rows_of (tables db) name) as [rows|e] eqn:Hrows; [|done].
        cbn [mbind result_bind].
        apply stamps_ok_sql_replace; [done|].
        destruct (rows !! key) as [old|] eqn:Hold; cbn; [|lia].
        apply rows_of_Primary in Hrows.
        specialize (H name rows key old Hrows Hold). lia.
      - by apply stamps_ok_sql_insert. }
    destruct r as [ts|e]; [|done]. specialize (Hr ts eq_refl).
    cbn [vec_enabled with_tables].
    destruct (vec_enabled db); [|done].
    unfold add_embedding.
    destruct (embed_document _ dat) as [emb|e]; [|done].
    cbn [tables with_tables].
    destruct (sql_update_embedding name key emb ts) as [ts1|e] eqn:H1;
      [|done].
    cbn [snd tables with_tables].
    by apply (stamps_ok_update_embedding now ts ts1 name key emb).
  - unfold adds.
    destruct (executemany_insert override name items now (tables db))
      as [ts|e] eqn:Hi.
    + apply (stamps_ok_executemany_insert now override name items _ _ H)
        in Hi.
      cbn [vec_enabled with_tables].
      destruct (vec_enabled db); [|done].
      unfold adds_embedding. cbn [embedder with_tables tables].
      destruct (embedder db) as [f|]; [|done].
      destruct (executemany_update_embedding name _ ts) as [ts1|e] eqn:H1.
      * by apply (stamps_ok_executemany_update now name _ _ _ Hi) in H1.
      * by destruct (is_sqlite_error e).
    + by destruct (is_sqlite_error e).
  - unfold delete.
    destruct (rows_of (tables db) name) as [rows|e] eqn:Hr; [|done].
    apply rows_of_Primary in Hr. cbn [snd tables with_tables].
    by apply (stamps_ok_delete now _ name rows [key]).
  - unfold deletes.
    destruct (max_variable_number <? Z.of_nat (length keys)); [done|].
    destruct (rows_of (tables db) name) as [rows|e] eqn:Hr; [|done].
    destruct (mapM bind_key keys) as [ks|e]; [|done].
    apply rows_of_Primary in Hr. cbn [snd tables with_tables].
    by apply stamps_ok_delete.
Qed.

End Stamps.

Lemma writes_keep_stamps_ordered_witness :
  stamps_ok 200
    (tables (add "t" "k" "two" true 200 Sample.one_row_db).2)
  /\ stamps_ok 200
       (tables (adds (R:=Sample.repr) (E:=Sample.engine) "t"
                  [(VStr "k", "two"); (VStr "j", "three")] true 200
                  Sample.one_row_db).2)
  /\ stamps_ok 200 (tables (delete "t" "k" Sample.one_row_db).2)
  /\ stamps_ok 200
       (tables (deletes (E:=Sample.engine) "t" [VStr "k"]
                  Sample.one_row_db).2).
Proof.
  apply (writes_keep_stamps_ordered (R:=Sample.repr) (E:=Sample.engine)
           100 200 Sample.one_row_db "t" "k" "two" true
           [(VStr "k", "two"); (VStr "j", "three")] [VStr "k"]).
  - intros name rows k r Ht Hk.
    unfold Sample.one_row_db in Ht. cbn [tables] in Ht.
    destruct (decide (name = "t")) as [->|Hn].
    + rewrite lookup_insert_eq in Ht. injection Ht as <-.
      destruct (decide (k = "k")) as [->|Hk'].
      * rewrite lookup_singleton_eq in Hk. injection Hk as <-. cbn. lia.
      * rewrite lookup_singleton_ne in Hk by done. discriminate Hk.
    + rewrite lookup_insert_ne in Ht by done.
      destruct (decide (name = "oak_conf")) as [->|Hn'].
      * rewrite lookup_singleton_eq in Ht. discriminate Ht.
      * rewrite lookup_singleton_ne in Ht by done. discriminate Ht.
  - lia.
Defined.

End BackendsSpec.

(** ** The Base facade *)

Module FacadeSpec.
Import Backends Facade.

Section WithEnv.
Context {R : PyRepr} {B : Builtins} {E : Engine}.

Lemma initialize_oak_conf (nm : string) (db : SQLiteBackend)
    (flags : gmap string string) :
  tables db !! "oak_conf" = Some (Conf flags) ->
  tables (initialize nm db) !! "oak_conf" = Some (Conf flags).
Proof.
  intros H. unfold initialize, sql_create_table.
  destruct (tables db !! nm) eqn:Hn; cbn [tables with_tables].
  - by rewrite H.
  - assert (nm ≠ "oak_conf") by (intros ->; congruence).
    assert (<[nm:=Primary ∅]> (tables db) !! "oak_conf" = Some (Conf flags))
      as Hl by (by rewrite lookup_insert_ne).
    by rewrite Hl.
Qed.

(** What the constructor reads from the flags, for a base name that the
    engine takes as a table name: search is enabled exactly when the flag
    holds a string that is not empty, and vector search is never enabled,
    since the call of [vdb] fails. *)
Lemma new_Base_flags (nm : string) (db : SQLiteBackend)
    (flags : gmap string string) :
  safe_name nm = true ->
  tables db !! "oak_conf" = Some (Conf flags) ->
  new_Base nm db
  = (Ok (mkBase nm
           (match flags !! (nm +:+ "_search") with
            | Some v => negb (String.eqb v "")
            | None => false
            end) false),
     initialize nm db).
Proof.
  intros _ H. unfold new_Base, get_configs.
  by rewrite (initialize_oak_conf nm db flags H).
Qed.

(** C3 at a store whose flag [b_search] holds the string 0, as
    [disable_search] leaves it: the Base constructed over it has
    [search_enabled] true. *)
Theorem search_flag_zero_reads_enabled :
  exists b db1 b1 db2 b2 db3,
    new_Base "b" Sample.empty_db = (Ok b, db1)
    /\ search_enabled b = false
    /\ disable_search b db1 = (Ok (true, b1), db2)
    /\ search_enabled b1 = false
    /\ get_configs "b" db2 = Ok {["b_search" := "0"]}
    /\ new_Base "b" db2 = (Ok b2, db3)
    /\ search_enabled b2 = true
    /\ vector_enabled b2 = false.
Proof.
  do 6 eexists. repeat split; vm_compute; reflexivity.
Qed.

End WithEnv.

Section Adds.
Context {R : PyRepr} {B : Builtins}.

(** C4 at [adds([moe, joe])] where [moe] is the dict
    [{"Name": "Moe", "key": "one"}] and [joe] is
    [{"Name": "Joe", "key": ""}]: the keys are [one] and a generated key,
    but the caller's dicts have lost their [key] entry and the stored bodies
    are the copies, which still hold it. *)
Theorem adds_pops_key_from_caller_dict :
  exists r h' db',
    adds (E:=Sample.engine) (mkBase "t" false false)
      (Items [DictRef 0%nat; DictRef 1%nat]) false 100
      {[ 0%nat := [("Name", VStr "Moe"); ("key", VStr "one")];
         1%nat := [("Name", VStr "Joe"); ("key", VStr "")] ]}
      (initialize "t" Sample.empty_db)
    = (Ok r, h', db')
    /\ AddsResponse.keys r = [VStr "one"; VStr "k1"]
    /\ AddsResponse.success r = true
    /\ h' !! 0%nat = Some [("Name", VStr "Moe")]
    /\ h' !! 1%nat = Some [("Name", VStr "Joe")]
    /\ get "t" "one" db'
       = Ok (Some ("one",
                   json_dumps
                     (VDict [("Name", VStr "Moe"); ("key", VStr "one")]),
                   100, 100))
    /\ get "t" "k1" db'
       = Ok (Some ("k1",
                   json_dumps (VDict [("Name", VStr "Joe"); ("key", VStr "")]),
                   100, 100)).
Proof.
  do 3 eexists. repeat split; vm_compute; reflexivity.
Qed.

End Adds.

Section Drop.
Context {R : PyRepr} {B : Builtins} {E : Engine}.

Lemma droplist_main (nm : string) :
  droplist nm "main" = [DropTable nm; DropTable "oak_conf"].
Proof. unfold droplist. by vm_compute (bool_decide _). Qed.

(** [drop_tables] with the kind [main] drops the configuration table with
    the primary table, and leaves every other table. *)
Lemma drop_tables_main (nm : string) (db : SQLiteBackend) :
  tables (drop_tables nm "main" db) !! nm = None
  /\ tables (drop_tables nm "main" db) !! "oak_conf" = None
  /\ forall t, t ≠ nm -> t ≠ "oak_conf" ->
       tables (drop_tables nm "main" db) !! t = tables db !! t.
Proof.
  unfold drop_tables. rewrite droplist_main.
  cbn [foldl execute_drop sql_drop_table tables with_schema triggers].
  repeat split.
  - destruct (decide (nm = "oak_conf")) as [->|Hne].
    + by rewrite lookup_delete_eq.
    + by rewrite lookup_delete_ne, lookup_delete_eq.
  - by rewrite lookup_delete_eq.
  - intros t H1 H2. by rewrite !lookup_delete_ne.
Qed.

(** C5 at a base [b] with search enabled: [drop("b", main_only=True)] drops
    the table [b] and also [oak_conf]; the mirror [b_fts] remains, and the
    triggers on [b] go with their table. *)
Theorem drop_main_only_drops_oak_conf :
  exists b db1 b1 db2 b2 db3,
    new_Base "b" Sample.empty_db = (Ok b, db1)
    /\ enable_search b db1 = (Ok ("enabled", b1), db2)
    /\ tables db2 !! "oak_conf" = Some (Conf {["b_search" := "1"]})
    /\ dom (tables db2) = {["b"; "oak_conf"; "b_fts"]}
    /\ dom (triggers db2) = {["b_ai"; "b_ad"; "b_au"]}
    /\ drop b1 "b" true db2 = (Ok (true, b2), db3)
    /\ tables db3 !! "oak_conf" = None
    /\ dom (tables db3) = {["b_fts"]}
    /\ triggers db3 = ∅.
Proof.
  do 6 eexists. repeat split; vm_compute; reflexivity.
Qed.

End Drop.

Section Delete.
Context {R : PyRepr} {B : Builtins} {E : Engine}.


End Delete.


Section Fetch.
Context {R : PyRepr} {B : Builtins} {E : Engine}.

Lemma ceil_div (total limit : Z) :
  1 <= limit ->
  ((total + limit - 1) `div` limit - 1) * limit < total
  <= (total + limit - 1) `div` limit * limit.
Proof.
  intros Hl.
  pose proof (Z.div_mod (total + limit - 1) limit ltac:(lia)) as Hd.
  pose proof (Z.mod_pos_bound (total + limit - 1) limit ltac:(lia)) as Hm.
  nia.
Qed.

(** C9: [fetch] works with [limit' = max(1, limit)] and
    [page' = max(1, page)]; it first asks for the count, with the offset
    [(page' - 1) * limit'].  When that query answers [total], the number of
    pages is the ceiling of [total / limit']; a page beyond it gives the
    response with no items and no error that still reports [page'], the
    pages and the total; a page within it gives the items of the second
    query, issued with the same limit and offset. *)
Theorem fetch_pagination (self : Base) (filters : pyobj) (limit : Z)
    (order : string) (page : Z) (db : SQLiteBackend) (total : Z) :
  match filters with VList _ | VDict _ | VNone => True | _ => False end ->
  fetch_query (name self) filters true (Z.max 1 limit)
    ((Z.max 1 page - 1) * Z.max 1 limit) "" db = Ok [[VInt total]] ->
  let limit' := Z.max 1 limit in
  let page' := Z.max 1 page in
  let pages := (total + limit' - 1) `div` limit' in
  1 <= limit' /\ 1 <= page'
  /\ (pages - 1) * limit' < total <= pages * limit'
  /\ (pages < page' ->
      fetch self filters limit order page db
      = ItemsResponse.mk page' pages total 0 [] "")
  /\ (page' <= pages ->
      forall results items,
        fetch_query (name self) filters false limit' ((page' - 1) * limit')
          order db = Ok results ->
        mapM item_of_row results = Ok items ->
        fetch self filters limit order page db
        = ItemsResponse.mk page' pages total limit' items "").
Proof.
  intros Hty Hcount limit' page' pages.
  assert (1 <= limit') by (subst limit'; lia).
  assert (1 <= page') by (subst page'; lia).
  split; [done|]. split; [done|].
  split; [by apply ceil_div|].
  assert (Hbody : forall r : result ItemsResponse.t,
    (if negb match filters with
             | VList _ | VDict _ | VNone => true
             | _ => false
             end
     then ItemsResponse.mk 0 0 0 0 []
            ("Not supported query type: " +:+ class_repr filters)
     else match r with
          | Ok x => x
          | Raise e => ItemsResponse.mk 0 0 0 0 [] (exn_str e)
          end)
    = match r with
      | Ok x => x
      | Raise e => ItemsResponse.mk 0 0 0 0 [] (exn_str e)
      end) by (intros r; by destruct filters).
  subst limit' page' pages. split.
  - intros Hlt. unfold fetch. cbv zeta. rewrite Hbody, Hcount.
    cbn [mbind result_bind first_cell py_int].
    by rewrite (proj2 (Z.ltb_lt _ _) Hlt).
  - intros Hle results items Hres Hitems. unfold fetch. cbv zeta.
    rewrite Hbody, Hcount. cbn [mbind result_bind first_cell py_int].
    rewrite (proj2 (Z.ltb_ge _ _) Hle).
    rewrite Hres. cbn [mbind result_bind]. by rewrite Hitems.
Qed.

End Fetch.

(** Page 5 with limit 2 over a base that counts three rows: two pages,
    no items, no error. *)
Lemma fetch_pagination_witness :
  fetch (R:=Sample.repr) (B:=Sample.builtins) (E:=Sample.engine)
    (mkBase "t" false false) VNone 2 "created__desc" 5
    (initialize "t" Sample.empty_db)
  = ItemsResponse.mk 5 2 3 0 [] "".
Proof.
  apply (fetch_pagination (R:=Sample.repr) (B:=Sample.builtins)
           (E:=Sample.engine) (mkBase "t" false false) VNone 2
           "created__desc" 5 (initialize "t" Sample.empty_db) 3 I eq_refl).
  reflexivity.
Defined.

Section DropAll.
Context {R : PyRepr} {B : Builtins} {E : Engine}.

Lemma execute_drop_absent (db : SQLiteBackend) (s : drop_stmt) (t : string) :
  tables db !! t = None -> tables (execute_drop db s) !! t = None.
Proof.
  intros H. destruct s as [n|n]; cbn; [|done].
  apply lookup_delete_None. by right.
Qed.

Lemma execute_drop_no_trigger (db : SQLiteBackend) (s : drop_stmt)
    (t : string) :
  (forall tg, triggers db !! tg ≠ Some t) ->
  forall tg, triggers (execute_drop db s) !! tg ≠ Some t.
Proof.
  intros H tg. destruct s as [n|n]; cbn.
  - intros [Hl _]%map_lookup_filter_Some. by apply (H tg).
  - intros [_ Hl]%lookup_delete_Some. by apply (H tg).
Qed.

(** A table that a list of statements drops is absent afterwards, and so
    are the triggers attached to it. *)
Lemma foldl_drop_table (l : list drop_stmt) (db : SQLiteBackend) (t : string) :
  (tables db !! t = None \/ DropTable t ∈ l) ->
  tables (foldl execute_drop db l) !! t = None.
Proof.
  revert db. induction l as [|s l IH]; intros db [H|H]; cbn [foldl].
  - done.
  - by apply elem_of_nil in H.
  - apply IH. left. by apply execute_drop_absent.
  - apply IH. apply elem_of_cons in H as [<-|H]; [left|by right].
    cbn. apply lookup_delete_eq.
Qed.

Lemma foldl_drop_table_triggers (l : list drop_stmt) (db : SQLiteBackend)
    (t : string) :
  ((forall tg, triggers db !! tg ≠ Some t) \/ DropTable t ∈ l) ->
  forall tg, triggers (foldl execute_drop db l) !! tg ≠ Some t.
Proof.
  revert db. induction l as [|s l IH]; intros db [H|H]; cbn [foldl].
  - done.
  - by apply elem_of_nil in H.
  - apply IH. left. by apply execute_drop_no_trigger.
  - apply IH. apply elem_of_cons in H as [<-|H]; [left|by right].
    cbn. intros tg [_ Hl]%map_lookup_filter_Some. by apply Hl.
Qed.

(** [drop_tables] with the kind [all], for a base name that the engine
    takes as a table name, a base table that is not itself a mirror, and a
    vector mirror that is absent or whose module is loaded: it leaves
    neither the primary table nor [oak_conf] nor the lexical mirror nor a
    trigger on the primary table; the vector mirror is dropped when the
    vector packages are installed. *)
Lemma drop_tables_all (nm : string) (db : SQLiteBackend) :
  safe_name nm = true ->
  tables db !! nm ≠ Some Virtual ->
  tables db !! (nm +:+ "_vec") = None \/ vec_enabled db = true ->
  tables (drop_tables nm "all" db) !! nm = None
  /\ tables (drop_tables nm "all" db) !! "oak_conf" = None
  /\ tables (drop_tables nm "all" db) !! (nm +:+ "_fts") = None
  /\ (VECTOR_DEPS = true ->
      tables (drop_tables nm "all" db) !! (nm +:+ "_vec") = None)
  /\ forall tg, triggers (drop_tables nm "all" db) !! tg ≠ Some nm.
Proof.
  intros _ _ _. unfold drop_tables, droplist.
  replace (bool_decide ("all" ∈ ["all"; "main"])) with true by done.
  replace (bool_decide ("all" ∈ ["all"; "search"])) with true by done.
  replace (bool_decide ("all" ∈ ["all"; "vector"])) with true by done.
  cbn [andb].
  repeat split.
  - apply foldl_drop_table. right. set_solver.
  - apply foldl_drop_table. right. set_solver.
  - apply foldl_drop_table. right. set_solver.
  - intros ->. apply foldl_drop_table. right. set_solver.
  - apply foldl_drop_table_triggers. right. set_solver.
Qed.

End DropAll.

(** Dropping the base of the one-row store. *)
Lemma drop_tables_all_witness :
  tables (drop_tables (E:=Sample.engine) "t" "all" Sample.one_row_db) !! "t"
  = None
  /\ tables (drop_tables (E:=Sample.engine) "t" "all" Sample.one_row_db)
       !! "oak_conf" = None
  /\ tables (drop_tables (E:=Sample.engine) "t" "all" Sample.one_row_db)
       !! ("t" +:+ "_fts") = None
  /\ (VECTOR_DEPS (Engine:=Sample.engine) = true ->
      tables (drop_tables (E:=Sample.engine) "t" "all" Sample.one_row_db)
        !! ("t" +:+ "_vec") = None)
  /\ forall tg,
       triggers (drop_tables (E:=Sample.engine) "t" "all" Sample.one_row_db)
         !! tg ≠ Some "t".
Proof.
  apply (drop_tables_all (E:=Sample.engine) "t" Sample.one_row_db).
  - vm_compute; reflexivity.
  - vm_compute. discriminate.
  - left. vm_compute; reflexivity.
Defined.


Section Search.
Context {R : PyRepr} {B : Builtins} {E : Engine}.





End Search.



Section FetchOrder.
Context {R : PyRepr} {B : Builtins} {E : Engine}.

(** [fetch] with an order that is not one of the eight: when the page asked
    for is beyond the last one the order is not looked at and the response
    carries no error; otherwise the response is the empty one with the
    error [Invalid order type]. *)
Theorem fetch_invalid_order (self : Base) (filters : pyobj) (limit : Z)
    (order : string) (page : Z) (db : SQLiteBackend) (total : Z) :
  match filters with VList _ | VDict _ | VNone => True | _ => False end ->
  fetch_query (name self) filters true (Z.max 1 limit)
    ((Z.max 1 page - 1) * Z.max 1 limit) "" db = Ok [[VInt total]] ->
  order ∉ Queries.OrderFetch ->
  ((total + Z.max 1 limit - 1) `div` Z.max 1 limit < Z.max 1 page ->
   fetch self filters limit order page db
   = ItemsResponse.mk (Z.max 1 page)
       ((total + Z.max 1 limit - 1) `div` Z.max 1 limit) total 0 [] "")
  /\ (Z.max 1 page <= (total + Z.max 1 limit - 1) `div` Z.max 1 limit ->
      fetch self filters limit order page db
      = ItemsResponse.mk 0 0 0 0 [] ("Invalid order type: " +:+ order)).
Proof.
  intros Hty Hcount Hord.
  assert (Hbody : forall r : result ItemsResponse.t,
    (if negb match filters with
             | VList _ | VDict _ | VNone => true
             | _ => false
             end
     then ItemsResponse.mk 0 0 0 0 []
            ("Not supported query type: " +:+ class_repr filters)
     else match r with
          | Ok x => x
          | Raise e => ItemsResponse.mk 0 0 0 0 [] (exn_str e)
          end)
    = match r with
      | Ok x => x
      | Raise e => ItemsResponse.mk 0 0 0 0 [] (exn_str e)
      end) by (intros r; by destruct filters).
  assert (forall l o,
    fetch_query (name self) filters false l o order db
    = Raise (AssertionError ("Invalid order type: " +:+ order))) as Hlist.
  { intros l o. revert Hcount. unfold fetch_query, Queries.build_fetch.
    destruct (if truthy filters
              then Queries.build_where_clause filters "data"
              else Ok ("", [])) as [[w ps]|e]; [|done].
    intros _. cbn [mbind result_bind].
    by rewrite (bool_decide_eq_false_2 _ Hord). }
  split.
  - intros Hlt. unfold fetch. cbv zeta. rewrite Hbody, Hcount.
    cbn [mbind result_bind first_cell py_int].
    by rewrite (proj2 (Z.ltb_lt _ _) Hlt).
  - intros Hle. unfold fetch. cbv zeta. rewrite Hbody, Hcount.
    cbn [mbind result_bind first_cell py_int].
    rewrite (proj2 (Z.ltb_ge _ _) Hle). by rewrite Hlist.
Qed.

End FetchOrder.

Lemma fetch_invalid_order_witness :
  ((3 + Z.max 1 2 - 1) `div` Z.max 1 2 < Z.max 1 1 ->
   fetch (R:=Sample.repr) (B:=Sample.builtins) (E:=Sample.engine)
     (mkBase "t" false false) VNone 2 "newest" 1
     (initialize "t" Sample.empty_db)
   = ItemsResponse.mk (Z.max 1 1) ((3 + Z.max 1 2 - 1) `div` Z.max 1 2) 3 0
       [] "")
  /\ (Z.max 1 1 <= (3 + Z.max 1 2 - 1) `div` Z.max 1 2 ->
      fetch (R:=Sample.repr) (B:=Sample.builtins) (E:=Sample.engine)
        (mkBase "t" false false) VNone 2 "newest" 1
        (initialize "t" Sample.empty_db)
      = ItemsResponse.mk 0 0 0 0 [] ("Invalid order type: " +:+ "newest")).
Proof.
  apply (fetch_invalid_order (R:=Sample.repr) (B:=Sample.builtins)
           (E:=Sample.engine) (mkBase "t" false false) VNone 2 "newest" 1
           (initialize "t" Sample.empty_db) 3).
  - exact I.
  - reflexivity.
  - apply (bool_decide_unpack (_ ∉ _)). vm_compute; reflexivity.
Defined.

(** The constructor over the one-row store, whose [oak_conf] is empty:
    neither flag is set. *)
Lemma new_Base_flags_witness :
  new_Base "t" Sample.one_row_db
  = (Ok (mkBase "t"
           (match (∅ : gmap string string) !! ("t" +:+ "_search") with
            | Some v => negb (String.eqb v "")
            | None => false
            end) false),
     initialize "t" Sample.one_row_db).
Proof.
  apply (new_Base_flags "t" Sample.one_row_db ∅).
  - vm_compute; reflexivity.
  - vm_compute; reflexivity.
Defined.

End FacadeSpec.

(** ** Placeholders against parameters in the statements *)

Module FetchSpec.
Import Queries.

Lemma split_dunder_aux_cons (c : ascii) (rest : string) (cur : list ascii) :
  split_dunder_aux (String c rest) cur
  = match rest with
    | String c' rest' =>
        if Ascii.eqb c "_" && Ascii.eqb c' "_"
        then string_of_list_ascii (rev cur) :: split_dunder_aux rest' []
        else split_dunder_aux rest (c :: cur)
    | EmptyString => split_dunder_aux rest (c :: cur)
    end.
Proof.
  destruct c as [[] [] [] [] [] [] [] []]; destruct rest as [|c' rest'];
    try reflexivity.
  destruct c' as [[] [] [] [] [] [] [] []]; reflexivity.
Qed.

Lemma count_q_cons (c : ascii) (s : string) :
  count_q (String c s) = 0%nat <-> c ≠ "?"%char /\ count_q s = 0%nat.
Proof.
  cbn [count_q]. destruct (Ascii.eqb_spec c "?"); split.
  - intros H. lia.
  - intros [H _]. done.
  - intros H. split; [done|lia].
  - intros [_ H]. lia.
Qed.

Lemma count_q_of_list (l : list ascii) :
  Forall (fun c => c ≠ "?"%char) l ->
  count_q (string_of_list_ascii l) = 0%nat.
Proof.
  induction 1 as [|c l Hc _ IH]; [done|].
  cbn [string_of_list_ascii]. by apply count_q_cons.
Qed.

Lemma split_dunder_aux_q (n : nat) :
  forall (s : string) (cur : list ascii),
    (String.length s <= n)%nat -> count_q s = 0%nat ->
    Forall (fun c => c ≠ "?"%char) cur ->
    Forall (fun p => count_q p = 0%nat) (split_dunder_aux s cur).
Proof.
  induction n as [|n IH]; intros s cur Hlen Hq Hcur.
  - destruct s; [|cbn in Hlen; lia]. cbn. constructor; [|constructor].
    apply count_q_of_list. by apply Forall_rev.
  - destruct s as [|c rest].
    + cbn. constructor; [|constructor].
      apply count_q_of_list. by apply Forall_rev.
    + rewrite split_dunder_aux_cons.
      apply count_q_cons in Hq as [Hc Hq]. cbn in Hlen.
      destruct rest as [|c' rest'].
      * apply IH; [cbn; lia | done | by constructor].
      * destruct (Ascii.eqb c "_" && Ascii.eqb c' "_").
        -- constructor.
           ++ apply count_q_of_list. by apply Forall_rev.
           ++ apply count_q_cons in Hq as [_ Hq].
              apply IH; [cbn in Hlen; lia | done | constructor].
        -- apply IH; [cbn in *; lia | done | by constructor].
Qed.

Lemma split_dunder_q (s : string) :
  count_q s = 0%nat -> Forall (fun p => count_q p = 0%nat) (split_dunder s).
Proof.
  intros H. apply (split_dunder_aux_q (String.length s)); [lia | done |].
  constructor.
Qed.

Lemma count_q_concat (sep : string) (l : list string) :
  count_q sep = 0%nat -> count_q (String.concat sep l) = total_q l.
Proof.
  intros Hsep. unfold total_q.
  induction l as [|a [|b l] IH]; [done | cbn; lia |].
  change (String.concat sep (a :: b :: l))
    with (a +:+ sep +:+ String.concat sep (b :: l)).
  rewrite !count_q_app, IH, Hsep. cbn. lia.
Qed.

Lemma total_q_app (l1 l2 : list string) :
  total_q (l1 ++ l2) = (total_q l1 + total_q l2)%nat.
Proof. apply sum_list_with_app. Qed.

Section WithRepr.
Context {R : PyRepr}.

Lemma condition_of_item_q (col : string) (item : string * pyobj)
    (sql : string) (p : list pyobj) :
  count_q col = 0%nat -> bindable_item item = true ->
  condition_of_item col item = Ok (sql, p) ->
  count_q sql = length p.
Proof.
  destruct item as [fld v]. unfold bindable_item. cbn [fst].
  intros Hcol [Hq Hop]%andb_prop.
  apply Nat.eqb_eq in Hq. apply negb_true_iff, bool_decide_eq_false in Hop.
  apply not_elem_of_cons in Hop as [Hin Hop].
  apply not_elem_of_cons in Hop as [Hnin _].
  pose proof (split_dunder_q fld Hq) as Hparts.
  unfold condition_of_item.
  destruct (2 <? length (split_dunder fld))%nat; [done|].
  set (op := if (1 <? length (split_dunder fld))%nat
             then nth 1 (split_dunder fld) "" else "eq").
  set (fn := if (1 <? length (split_dunder fld))%nat
             then nth 0 (split_dunder fld) "" else fld).
  assert (op ≠ "in" /\ op ≠ "!in") as [Ho1 Ho2].
  { subst op. by destruct (1 <? length (split_dunder fld))%nat. }
  assert (count_q fn = 0%nat) as Hfn.
  { subst fn. destruct (1 <? length (split_dunder fld))%nat; [|done].
    destruct (split_dunder fld) as [|a l]; [done|].
    by apply Forall_cons in Hparts as [Ha _]. }
  destruct (new_Condition op fn v col) as [c|e] eqn:Hnew; [|done].
  cbn [mbind result_bind].
  destruct (get_cond_sql c) as [s|e] eqn:Hsql; [|done].
  cbn [mbind result_bind mret result_ret]. intros [= <- <-].
  symmetry.
  by apply (QueriesSpec.param_count_matches op fn v col c s).
Qed.

Lemma build_condition_loop_q (col : string) (items : list (string * pyobj)) :
  forall clauses params clauses' params',
    count_q col = 0%nat -> forallb bindable_item items = true ->
    build_condition_loop items col clauses params = Ok (clauses', params') ->
    total_q clauses = length params -> total_q clauses' = length params'.
Proof.
  induction items as [|item items IH];
    intros clauses params clauses' params' Hcol Hb Hloop Hinv.
  - cbn in Hloop. by injection Hloop as <- <-.
  - cbn [forallb] in Hb. apply andb_prop in Hb as [Hb1 Hb2].
    cbn [build_condition_loop] in Hloop.
    destruct (condition_of_item col item) as [[sql p]|e] eqn:Hitem; [|done].
    cbn [mbind result_bind] in Hloop.
    apply (IH _ _ _ _ Hcol Hb2 Hloop).
    rewrite total_q_app, length_app, Hinv.
    unfold total_q. cbn.
    rewrite (condition_of_item_q col item sql p Hcol Hb1 Hitem). lia.
Qed.

Lemma build_condition_q (col : string) (d : list (string * pyobj))
    (sql : string) (params : list pyobj) :
  count_q col = 0%nat -> forallb bindable_item d = true ->
  build_condition d col = Ok (sql, params) ->
  count_q sql = length params.
Proof.
  intros Hcol Hb. unfold build_condition.
  destruct (build_condition_loop d col [] []) as [[cl ps]|e] eqn:Hloop;
    [|done].
  cbn [mbind result_bind mret result_ret]. intros [= <- <-].
  rewrite count_q_concat by done.
  by apply (build_condition_loop_q col d [] [] cl ps).
Qed.

Lemma build_where_loop_q (col : string) (l : list pyobj) :
  forall clauses params clauses' params',
    count_q col = 0%nat ->
    forallb (fun g => match g with
                      | VDict d => forallb bindable_item d
                      | _ => true
                      end) l = true ->
    build_where_loop l col clauses params = Ok (clauses', params') ->
    total_q clauses = length params -> total_q clauses' = length params'.
Proof.
  induction l as [|g l IH];
    intros clauses params clauses' params' Hcol Hb Hloop Hinv.
  - cbn in Hloop. by injection Hloop as <- <-.
  - cbn [forallb] in Hb. apply andb_prop in Hb as [Hb1 Hb2].
    cbn [build_where_loop] in Hloop.
    destruct g as [|b|z|m e|s|l'|l'|d]; try done.
    destruct (build_condition d col) as [[sql p]|e] eqn:Hg; [|done].
    cbn [mbind result_bind] in Hloop.
    apply (IH _ _ _ _ Hcol Hb2 Hloop).
    rewrite total_q_app, length_app, Hinv.
    unfold total_q. cbn.
    rewrite (build_condition_q col d sql p Hcol Hb1 Hg). lia.
Qed.

Lemma build_where_clause_q (conditions : pyobj) (col sql : string)
    (params : list pyobj) :
  count_q col = 0%nat -> bindable conditions = true ->
  build_where_clause conditions col = Ok (sql, params) ->
  count_q sql = length params.
Proof.
  intros Hcol Hb.
  assert (forall l,
    forallb (fun g => match g with
                      | VDict d => forallb bindable_item d
                      | _ => true
                      end) l = true ->
    ('(clauses, params) ← build_where_loop l col [] [];
     mret ("(" +:+ String.concat " OR " clauses +:+ ")", params))
    = Ok (sql, params) -> count_q sql = length params) as Hlist.
  { intros l Hl.
    destruct (build_where_loop l col [] []) as [[cl ps]|e] eqn:Hloop; [|done].
    cbn [mbind result_bind mret result_ret]. intros [= <- <-].
    rewrite !count_q_app, count_q_concat by done. cbn.
    rewrite (build_where_loop_q col l [] [] cl ps Hcol Hl Hloop); [lia|done]. }
  destruct conditions as [|b|z|m e|s|l|l|d]; try done.
  - destruct s; [|done]. cbn. by intros [= <- <-].
  - by apply Hlist.
  - by apply Hlist.
  - by apply build_condition_q.
Qed.

(** The parameters that [build_fetch] returns with a statement are those
    of the filter, followed in the listing form by the limit and the
    offset; when the name of the base and the keys of the filter hold no
    question mark and no condition uses [in] or [!in], the statement has
    exactly as many placeholders as there are parameters. *)
Theorem build_fetch_placeholder_count (base_name : string)
    (conditions : pyobj) (limit offset : Z) (order : string) (count : bool)
    (sql : string) (params : list pyobj) :
  count_q base_name = 0%nat ->
  bindable conditions = true ->
  build_fetch base_name conditions limit offset order count
  = Ok (sql, params) ->
  exists where_sql where_params,
    (if truthy conditions then build_where_clause conditions "data"
     else Ok ("", [])) = Ok (where_sql, where_params)
    /\ params = (if count then where_params
                 else where_params ++ [VInt limit; VInt offset])
    /\ count_q sql = length params.
Proof.
  intros Hnm Hb. unfold build_fetch.
  destruct (if truthy conditions then build_where_clause conditions "data"
            else Ok ("", [])) as [[ws ps]|e] eqn:Hweq; [|done].
  assert (count_q ws = length ps) as Hw.
  { revert Hweq. destruct (truthy conditions).
    - by apply build_where_clause_q.
    - by intros [= <- <-]. }
  cbn [mbind result_bind].
  set (where_part := if truthy (VStr ws) then "WHERE " +:+ ws else "").
  assert (count_q where_part = length ps) as Hwp.
  { subst where_part. destruct (truthy (VStr ws)) eqn:Htr.
    - by rewrite count_q_app.
    - destruct ws; [by rewrite <- Hw | done]. }
  destruct count.
  - intros [= <- <-]. exists ws, ps. split; [done|]. split; [done|].
    rewrite !count_q_app, Hnm, Hwp. by cbn.
  - destruct (decide (order ∈ OrderFetch)) as [Ho|Ho].
    + rewrite (bool_decide_eq_true_2 _ Ho). cbn [negb].
      unfold OrderFetch in Ho.
      repeat (apply elem_of_cons in Ho as [-> | Ho]);
        [..|by apply elem_of_nil in Ho].
      all: cbn [split_dunder]; intros [= <- <-].
      all: exists ws, ps; split; [done|]; split; [done|].
      all: rewrite !count_q_app, Hnm, Hwp, length_app.
      all: repeat match goal with
                  | |- context [count_q ?s] =>
                      let n := eval vm_compute in (count_q s) in
                      change (count_q s) with n
                  end.
      all: cbn [length]; lia.
    + by rewrite (bool_decide_eq_false_2 _ Ho).
Qed.

End WithRepr.

(** The newest ten users of age 18 or more. *)
Lemma build_fetch_placeholder_count_witness :
  exists where_sql where_params,
    (if truthy (VDict [("age__gte", VInt 18)])
     then build_where_clause (R:=Sample.repr)
            (VDict [("age__gte", VInt 18)]) "data"
     else Ok ("", [])) = Ok (where_sql, where_params)
    /\ [VInt 18; VInt 10; VInt 0]
       = (if false then where_params
          else where_params ++ [VInt 10; VInt 0])
    /\ count_q
         (nl +:+ "    SELECT key, data, created, updated FROM " +:+ "users"
          +:+ nl +:+ "    "
          +:+ "WHERE CAST(json_extract(data, '$.age') as NUMERIC) >= ?"
          +:+ nl +:+ "    ORDER BY " +:+ "created" +:+ " " +:+ "DESC" +:+ nl
          +:+ "    LIMIT ?" +:+ nl +:+ "    OFFSET ?" +:+ nl +:+ "    ")
       = length [VInt 18; VInt 10; VInt 0].
Proof.
  apply (build_fetch_placeholder_count (R:=Sample.repr) "users"
           (VDict [("age__gte", VInt 18)]) 10 0 "created__desc" false).
  - reflexivity.
  - reflexivity.
  - reflexivity.
Defined.


Section Search.
Context {R : PyRepr} {S : PyStrip}.

(** [build_search] returns a statement only for a text that is neither
    empty nor empty once stripped; the parameters are the text, then those
    of the filter, then in the listing form the limit and the offset; under
    the conditions of [build_fetch_placeholder_count] the statement has as
    many placeholders as there are parameters. *)
Theorem build_search_placeholder_count (base_name query : string)
    (conditions : pyobj) (limit offset : Z) (order : string) (count : bool)
    (sql : string) (params : list pyobj) :
  count_q base_name = 0%nat ->
  bindable conditions = true ->
  build_search base_name query conditions limit offset order count
  = Ok (sql, params) ->
  exists where_sql where_params,
    (if truthy conditions then build_where_clause conditions "data"
     else Ok ("", [])) = Ok (where_sql, where_params)
    /\ params = VStr query :: (if count then where_params
                               else where_params ++ [VInt limit; VInt offset])
    /\ count_q sql = length params
    /\ query ≠ "" /\ py_strip query ≠ "".
Proof.
  intros Hnm Hb. unfold build_search.
  destruct (truthy (VStr query)) eqn:Hq1; [|done].
  destruct (truthy (VStr (py_strip query))) eqn:Hq2; [|done].
  cbn [negb orb].
  destruct (if truthy conditions then build_where_clause conditions "data"
            else Ok ("", [])) as [[ws ps]|e] eqn:Hweq; [|done].
  assert (count_q ws = length ps) as Hw.
  { revert Hweq. destruct (truthy conditions).
    - by apply build_where_clause_q.
    - by intros [= <- <-]. }
  cbn [mbind result_bind].
  set (and_part := if truthy (VStr ws) then "AND " +:+ ws else "").
  assert (count_q and_part = length ps) as Hwp.
  { subst and_part. destruct (truthy (VStr ws)) eqn:Htr.
    - by rewrite count_q_app.
    - destruct ws; [by rewrite <- Hw | done]. }
  assert (query ≠ "" /\ py_strip query ≠ "") as Hne.
  { cbn in Hq1, Hq2. apply negb_true_iff in Hq1, Hq2.
    by split; apply String.eqb_neq. }
  destruct count.
  - intros [= <- <-]. exists ws, ps. split; [done|]. split; [done|].
    split; [|done].
    rewrite !count_q_app, Hnm, Hwp.
    repeat match goal with
      | |- context [count_q ?s] =>
          let n := eval vm_compute in (count_q s) in
          change (count_q s) with n
      end.
    cbn [length app]. lia.
  - destruct (decide (order ∈ OrderSearch)) as [Ho|Ho].
    + rewrite (bool_decide_eq_true_2 _ Ho). cbn [negb].
      unfold OrderSearch in Ho.
      repeat (apply elem_of_cons in Ho as [-> | Ho]);
        [..|by apply elem_of_nil in Ho].
      all: cbn [split_dunder]; intros [= <- <-].
      all: exists ws, ps; split; [done|]; split; [done|]; split; [|done].
      all: rewrite !count_q_app, Hnm, Hwp; cbn [length]; rewrite length_app.
      all: repeat match goal with
                  | |- context [count_q ?s] =>
                      let n := eval vm_compute in (count_q s) in
                      change (count_q s) with n
                  end.
      all: cbn [length app]; lia.
    + by rewrite (bool_decide_eq_false_2 _ Ho).
Qed.

End Search.

(** The ten best matches for [oak] among the users of age 18 or more. *)
Lemma build_search_placeholder_count_witness :
  exists where_sql where_params,
    (if truthy (VDict [("age__gte", VInt 18)])
     then build_where_clause (R:=Sample.repr)
            (VDict [("age__gte", VInt 18)]) "data"
     else Ok ("", [])) = Ok (where_sql, where_params)
    /\ [VStr "oak"; VInt 18; VInt 10; VInt 0]
       = VStr "oak" :: (if false then where_params
                        else where_params ++ [VInt 10; VInt 0])
    /\ count_q
         (nl +:+ "    SELECT key, data, created, updated, rank FROM "
          +:+ "users" +:+ "_fts" +:+ nl
          +:+ "    WHERE " +:+ "users" +:+ "_fts MATCH ?" +:+ nl
          +:+ "    "
          +:+ "AND CAST(json_extract(data, '$.age') as NUMERIC) >= ?"
          +:+ nl +:+ "    ORDER BY " +:+ "rank" +:+ " " +:+ "ASC" +:+ nl
          +:+ "    LIMIT ?" +:+ nl +:+ "    OFFSET ?" +:+ nl +:+ "    ")
       = length [VStr "oak"; VInt 18; VInt 10; VInt 0]
    /\ "oak" ≠ "" /\ py_strip (PyStrip:=Sample.strip) "oak" ≠ "".
Proof.
  apply (build_search_placeholder_count (R:=Sample.repr) (S:=Sample.strip)
           "users" "oak" (VDict [("age__gte", VInt 18)]) 10 0 "rank__asc"
           false).
  - reflexivity.
  - reflexivity.
  - reflexivity.
Defined.

End FetchSpec.

(** ** Single records through the facade *)

Module RecordsSpec.
Import Backends Facade.

Lemma dict_pop_get (d : list (string * pyobj)) (k : string) :
  NoDup d.*1 ->
  dict_get (dict_pop d k).2 k = None
  /\ forall k', k' ≠ k -> dict_get (dict_pop d k).2 k' = dict_get d k'.
Proof.
  induction d as [|[k0 v] d IH]; intros Hnd; [done|].
  cbn in Hnd. apply NoDup_cons in Hnd as [Hk0 Hnd].
  destruct (IH Hnd) as [IH1 IH2]. cbn [dict_pop].
  destruct (String.eqb_spec k0 k) as [->|Hne]; cbn [snd].
  - split.
    + by apply dict_get_None.
    + intros k' Hk'. cbn [dict_get].
      destruct (String.eqb_spec k k') as [->|_]; done.
  - destruct (dict_pop d k) as [r d''] eqn:Hp. cbn [snd] in *. split.
    + cbn [dict_get]. by rewrite (proj2 (String.eqb_neq _ _) Hne).
    + intros k' Hk'. cbn [dict_get]. destruct (String.eqb k0 k'); [done|].
      by apply IH2.
Qed.

Section Records.
Context {R : PyRepr} {B : Builtins} {E : Engine}.

Lemma add_pops (self : Base) (data : item) (key : pyobj) (override : bool)
    (now : Z) (h : heap) (db : SQLiteBackend) :
  (Records.add self data key override now h db).1.2
  = match data with
    | DictRef l => <[l := (dict_pop (h !!! l) "key").2]> h
    | Plain _ => h
    end.
Proof.
  unfold Records.add.
  set (h' := match data with
             | DictRef l => <[l := (dict_pop (h !!! l) "key").2]> h
             | Plain _ => h
             end).
  set (_key := match data with
               | DictRef l => (dict_pop (h !!! l) "key").1
               | Plain _ => VNone
               end).
  assert (match data with
          | DictRef l =>
              let '(popped, d') := dict_pop (h !!! l) "key" in
              (popped, <[l := d']> h)
          | Plain _ => (VNone, h)
          end = (_key, h')) as ->.
  { subst _key h'. destruct data as [l|v]; [|done].
    by destruct (dict_pop (h !!! l) "key"). }
  assert (forall (k : pyobj) (db1 : SQLiteBackend),
    (match Backends.add (name self) (py_str k)
             (json_dumps match data with
                         | DictRef l => VDict (h' !!! l)
                         | Plain v => v
                         end) override now db1 with
     | (Ok _, db) =>
         (Ok (AddResponse.mk (py_str k) data
                (dict_set (AddResponse.kv AddResponse.empty) (py_str k)
                   (Obj data))
                (AddResponse.error AddResponse.empty)), h', db)
     | (Raise (IntegrityError _), db) =>
         (Ok (AddResponse.mk (AddResponse.key AddResponse.empty)
                (AddResponse.data AddResponse.empty)
                (AddResponse.kv AddResponse.empty)
                ("Item with key '" +:+ py_str k +:+ "' already exists")),
          h', db)
     | (Raise e, db) => (Raise e, h', db)
     end).1.2 = h') as Hin.
  { intros k db1. destruct (Backends.add _ _ _ _ _ _) as [[u|e] db2]; [done|].
    by destruct e. }
  destruct key; try done.
  all: repeat match goal with
         | |- context [if ?b then _ else _] => destruct b
         end.
  all: try destruct (genkey 12 "" db) as [g db1].
  all: apply Hin.
Qed.

(** Whatever the key, the flag and the outcome, [add] on a dict removes the
    entry [key] from the dict that the caller handed over, also when it
    answers that the type of [key] is invalid; the other entries and the
    other objects are as before. *)
Theorem add_pops_key_from_dict (self : Base) (l : loc) (key : pyobj)
    (override : bool) (now : Z) (h : heap) (db : SQLiteBackend)
    (d : list (string * pyobj)) :
  h !! l = Some d ->
  NoDup d.*1 ->
  exists d',
    (Records.add self (DictRef l) key override now h db).1.2 !! l = Some d'
    /\ dict_get d' "key" = None
    /\ (forall k, k ≠ "key" -> dict_get d' k = dict_get d k)
    /\ (forall l', l' ≠ l ->
          (Records.add self (DictRef l) key override now h db).1.2 !! l'
          = h !! l').
Proof.
  intros Hl Hnd. rewrite add_pops.
  rewrite (lookup_total_correct _ _ _ Hl).
  exists (dict_pop d "key").2. split; [by rewrite lookup_insert_eq|].
  destruct (dict_pop_get d "key" Hnd) as [H1 H2].
  repeat split; [done | done |].
  intros l' Hne. by rewrite lookup_insert_ne.
Qed.

Lemma dict_get_set {A} (d : list (string * A)) (k k' : string) (v : A) :
  dict_get (dict_set d k v) k' = if String.eqb k k' then Some v else dict_get d k'.
Proof.
  induction d as [|[k0 v0] d IH]; cbn [dict_set dict_get].
  - done.
  - destruct (String.eqb_spec k0 k) as [->|Hne]; cbn [dict_get].
    + by destruct (String.eqb k k').
    + destruct (String.eqb_spec k0 k') as [->|Hne'].
      * by rewrite (proj2 (String.eqb_neq _ _)) by done.
      * done.
Qed.



(** [add] without [override] on a key that the table holds: the response
    carries the error and is falsy, and the store is as before. *)
Theorem add_existing_key (self : Base) (data : item) (k : string) (now : Z)
    (h : heap) (db : SQLiteBackend) (rows : gmap string row) (old : row) :
  tables db !! name self = Some (Primary rows) ->
  no_triggers db (name self) ->
  k ≠ "" ->
  rows !! k = Some old ->
  exists h' resp,
    Records.add self data (VStr k) false now h db = (Ok resp, h', db)
    /\ AddResponse.error resp
       = "Item with key '" +:+ k +:+ "' already exists"
    /\ AddResponse.key resp = ""
    /\ AddResponse.bool_ resp = false.
Proof.
  intros Ht _ Hk Hold.
  assert (String.eqb k "" = false) as Hk' by by apply String.eqb_neq.
  apply BackendsSpec.rows_of_Primary in Ht as Hr.
  assert (forall dat,
    Backends.add (name self) k dat false now db
    = (Raise (IntegrityError
                ("UNIQUE constraint failed: " +:+ name self +:+ ".key")), db))
    as Hadd.
  { intros dat. unfold Backends.add, sql_insert. rewrite Hr.
    cbn [mbind result_bind]. by rewrite Hold. }
  unfold Records.add.
  destruct (match data with
            | DictRef l =>
                let '(popped, d') := dict_pop (h !!! l) "key" in
                (popped, <[l := d']> h)
            | Plain _ => (VNone, h)
            end) as [_key h'].
  cbn [truthy py_str]. rewrite Hk'. cbn [negb py_str]. rewrite Hadd.
  eexists _, _. split; [done|]. by cbn.
Qed.

(** [get] of a key that the table holds: the response has the key and the
    decoded value, [kv] maps [created] and [updated] to the timestamps of
    the row, and it maps the key to the value unless the key is one of
    these two names. *)
Theorem get_present_key (self : Base) (key : pyobj) (db : SQLiteBackend)
    (rows : gmap string row) (r : row) (v : pyobj) :
  valid_get_key key = true ->
  tables db !! name self = Some (Primary rows) ->
  rows !! py_str key = Some r ->
  json_loads (data r) = Ok v ->
  exists resp,
    Records.get self key db = Ok resp
    /\ AddResponse.key resp = py_str key
    /\ AddResponse.data resp = Plain v
    /\ AddResponse.error resp = ""
    /\ dict_get (AddResponse.kv resp) "created" = Some (Stamp (created r))
    /\ dict_get (AddResponse.kv resp) "updated" = Some (Stamp (updated r))
    /\ (dict_get (AddResponse.kv resp) (py_str key) = Some (Obj (Plain v))
        <-> py_str key ≠ "created" /\ py_str key ≠ "updated").
Proof.
  intros Hty Ht Hk Hjson. apply BackendsSpec.rows_of_Primary in Ht as Hr.
  assert (Records.get self key db
          = Ok (AddResponse.mk (py_str key) (Plain v)
                  (dict_set
                     (dict_set [(py_str key, Obj (Plain v))] "created"
                        (Stamp (created r)))
                     "updated" (Stamp (updated r))) "")) as ->.
  { unfold Records.get.
    assert ((row ← Backends.get (name self) (py_str key) db;
             match row with
             | None =>
                 Ok (AddResponse.mk (py_str key)
                       (AddResponse.data AddResponse.empty)
                       (AddResponse.kv AddResponse.empty) "Key not found")
             | Some (row0, row1, row2, row3) =>
                 dat ← json_loads row1;
                 Ok (AddResponse.mk row0 (Plain dat)
                       (dict_set
                          (dict_set
                             (dict_set (AddResponse.kv AddResponse.empty)
                                row0 (Obj (Plain dat)))
                             "created" (Stamp row2))
                          "updated" (Stamp row3))
                       (AddResponse.error AddResponse.empty))
             end)
            = Ok (AddResponse.mk (py_str key) (Plain v)
                    (dict_set
                       (dict_set [(py_str key, Obj (Plain v))] "created"
                          (Stamp (created r)))
                       "updated" (Stamp (updated r))) "")) as Hbody.
    { unfold Backends.get. rewrite Hr. cbn [mbind result_bind]. rewrite Hk.
      cbn [fmap option_fmap option_map]. rewrite Hjson. done. }
    destruct key as [|b|z|m e|s|l|l|d]; try done.
    destruct s as [|c s]; [done|]. exact Hbody. }
  eexists. split; [done|]. cbn [AddResponse.key AddResponse.data
    AddResponse.error AddResponse.kv].
  rewrite !dict_get_set. cbn [dict_get]. rewrite !String.eqb_refl.
  repeat split; try done.
  - intros Heq. rewrite Heq in H. cbn in H. discriminate H.
  - intros Heq. rewrite Heq in H. cbn in H. discriminate H.
  - intros [H1 H2].
    rewrite (proj2 (String.eqb_neq "updated" _)) by done.
    by rewrite (proj2 (String.eqb_neq "created" _)) by done.
Qed.

(** [get] of a key that the table does not hold: the response has the
    string form of the key, the error, no data, and is falsy. *)
Theorem get_absent_key (self : Base) (key : pyobj) (db : SQLiteBackend)
    (rows : gmap string row) :
  valid_get_key key = true ->
  tables db !! name self = Some (Primary rows) ->
  rows !! py_str key = None ->
  Records.get self key db
  = Ok (AddResponse.mk (py_str key) (Plain VNone) [] "Key not found")
  /\ AddResponse.bool_
       (AddResponse.mk (py_str key) (Plain VNone) [] "Key not found") = false.
Proof.
  intros Hty Ht Hk. split; [|done].
  apply BackendsSpec.rows_of_Primary in Ht as Hr.
  assert (Backends.get (name self) (py_str key) db = Ok None) as Hget.
  { unfold Backends.get. rewrite Hr. cbn [mbind result_bind]. by rewrite Hk. }
  unfold Records.get.
  destruct key as [|b|z|m e|s|l|l|d]; try done.
  - by rewrite Hget.
  - by rewrite Hget.
  - destruct s as [|c s]; [done|]. by rewrite Hget.
Qed.

(** [deletes] with a list of string keys that is not empty nor longer than
    the engine's limit, on a table without triggers: the response counts
    the rows whose key is among [keys], carries no error and is truthy;
    afterwards none of these keys is in the table and the other rows are
    as before. *)
Theorem deletes_response (self : Base) (keys : list string)
    (db : SQLiteBackend) (rows : gmap string row) :
  tables db !! name self = Some (Primary rows) ->
  no_triggers db (name self) ->
  keys ≠ [] ->
  Z.of_nat (length keys) <= max_variable_number ->
  exists db',
    Records.deletes self (VList (VStr <$> keys)) db
    = (DeletesResponse.mk
         (Z.of_nat (size (filter (fun kv => kv.1 ∈ keys) rows))) "", db')
    /\ DeletesResponse.bool_
         (DeletesResponse.mk
            (Z.of_nat (size (filter (fun kv => kv.1 ∈ keys) rows))) "") = true
    /\ (forall k, k ∈ keys -> Backends.get (name self) k db' = Ok None)
    /\ (forall k, k ∉ keys ->
          Backends.get (name self) k db' = Backends.get (name self) k db).
Proof.
  intros Ht _ Hne Hlen.
  pose proof (BackendsSpec.deletes_rows (name self) keys db rows Ht Hlen)
    as Hd.
  eexists. split; [|split; [done|split]].
  - unfold Records.deletes. rewrite Hd.
    destruct keys as [|k keys]; [done|]. by cbn.
  - intros k Hk.
    rewrite (BackendsSpec.get_without_keys (name self) keys db rows k Ht).
    by rewrite decide_True.
  - intros k Hk.
    rewrite (BackendsSpec.get_without_keys (name self) keys db rows k Ht).
    by rewrite decide_False.
Qed.

(** [deletes] never raises, and when the response carries an error it
    counts no deletion and the store is as before; without the table the
    error is the engine's. *)
Theorem deletes_failure_keeps_store (self : Base) (keys : pyobj)
    (db : SQLiteBackend) :
  (DeletesResponse.error (Records.deletes self keys db).1 ≠ "" ->
   DeletesResponse.deletes (Records.deletes self keys db).1 = 0
   /\ (Records.deletes self keys db).2 = db)
  /\ (tables db !! name self = None ->
      truthy keys = true -> is_sequence keys = true ->
      Z.of_nat (length (match keys with
                        | VList l | VTuple l => l
                        | _ => []
                        end)) <= max_variable_number ->
      Records.deletes self keys db
      = (DeletesResponse.mk 0 ("no such table: " +:+ name self), db)).
Proof.
  split.
  - unfold Records.deletes.
    destruct keys as [|b|z|m e|s|l|l|d]; try done.
    + destruct (negb (truthy (VList l))); [done|].
      destruct (Backends.deletes (name self) l db) as [[n|e] db'] eqn:Hd;
        [done|].
      intros _. split; [done|]. revert Hd. unfold Backends.deletes.
      destruct (max_variable_number <? _); [by intros [= _ <-]|].
      destruct (rows_of _ _); [|by intros [= _ <-]].
      destruct (mapM bind_key l); [done|by intros [= _ <-]].
    + destruct (negb (truthy (VTuple l))); [done|].
      destruct (Backends.deletes (name self) l db) as [[n|e] db'] eqn:Hd;
        [done|].
      intros _. split; [done|]. revert Hd. unfold Backends.deletes.
      destruct (max_variable_number <? _); [by intros [= _ <-]|].
      destruct (rows_of _ _); [|by intros [= _ <-]].
      destruct (mapM bind_key l); [done|by intros [= _ <-]].
  - intros Ht Hk Hs Hlen. unfold Records.deletes.
    destruct keys as [|b|z|m e|s|l|l|d]; try done.
    all: rewrite Hk; cbn [negb]; unfold Backends.deletes, rows_of.
    all: by rewrite (proj2 (Z.ltb_ge _ _) Hlen), Ht.
Qed.

End Records.

(** *** The theorems above at the one-row sample store *)

Lemma add_pops_key_from_dict_witness :
  exists d',
    (Records.add (R:=Sample.repr) (B:=Sample.builtins) (E:=Sample.engine)
       (mkBase "t" false false) (DictRef 0%nat) (VBool true) false 200
       {[ 0%nat := [("Name", VStr "Moe"); ("key", VStr "one")] ]}
       Sample.one_row_db).1.2 !! 0%nat = Some d'
    /\ dict_get d' "key" = None
    /\ (forall k, k ≠ "key" ->
          dict_get d' k
          = dict_get [("Name", VStr "Moe"); ("key", VStr "one")] k)
    /\ (forall l', l' ≠ 0%nat ->
          (Records.add (R:=Sample.repr) (B:=Sample.builtins)
             (E:=Sample.engine) (mkBase "t" false false) (DictRef 0%nat)
             (VBool true) false 200
             {[ 0%nat := [("Name", VStr "Moe"); ("key", VStr "one")] ]}
             Sample.one_row_db).1.2 !! l'
          = ({[ 0%nat := [("Name", VStr "Moe"); ("key", VStr "one")] ]}
               : heap) !! l').
Proof.
  apply (add_pops_key_from_dict (R:=Sample.repr) (B:=Sample.builtins)
           (E:=Sample.engine) (mkBase "t" false false) 0%nat (VBool true)
           false 200 _ Sample.one_row_db
           [("Name", VStr "Moe"); ("key", VStr "one")]).
  - vm_compute; reflexivity.
  - apply (bool_decide_unpack (NoDup _)). vm_compute; reflexivity.
Defined.


Lemma add_existing_key_witness :
  exists h' resp,
    Records.add (R:=Sample.repr) (B:=Sample.builtins) (E:=Sample.engine)
      (mkBase "t" false false) (Plain (VInt 1)) (VStr "k") false 200 ∅
      Sample.one_row_db
    = (Ok resp, h', Sample.one_row_db)
    /\ AddResponse.error resp = "Item with key '" +:+ "k" +:+ "' already exists"
    /\ AddResponse.key resp = ""
    /\ AddResponse.bool_ resp = false.
Proof.
  apply (add_existing_key (R:=Sample.repr) (B:=Sample.builtins)
           (E:=Sample.engine) (mkBase "t" false false) (Plain (VInt 1)) "k"
           200 ∅ Sample.one_row_db {[ "k" := mkRow "one" None 100 100 ]}
           (mkRow "one" None 100 100)).
  - vm_compute; reflexivity.
  - intros tg. vm_compute. discriminate.
  - discriminate.
  - vm_compute; reflexivity.
Defined.

Lemma get_present_key_witness :
  exists resp,
    Records.get (R:=Sample.repr) (B:=Sample.builtins)
      (mkBase "t" false false) (VStr "k") Sample.one_row_db = Ok resp
    /\ AddResponse.key resp = "k"
    /\ AddResponse.data resp = Plain (VDict [])
    /\ AddResponse.error resp = ""
    /\ dict_get (AddResponse.kv resp) "created" = Some (Stamp 100)
    /\ dict_get (AddResponse.kv resp) "updated" = Some (Stamp 100)
    /\ (dict_get (AddResponse.kv resp) "k" = Some (Obj (Plain (VDict [])))
        <-> "k" ≠ "created" /\ "k" ≠ "updated").
Proof.
  apply (get_present_key (R:=Sample.repr) (B:=Sample.builtins)
           (mkBase "t" false false) (VStr "k") Sample.one_row_db
           {[ "k" := mkRow "one" None 100 100 ]} (mkRow "one" None 100 100)
           (VDict [])).
  - reflexivity.
  - vm_compute; reflexivity.
  - vm_compute; reflexivity.
  - reflexivity.
Defined.

Lemma get_absent_key_witness :
  Records.get (R:=Sample.repr) (B:=Sample.builtins)
    (mkBase "t" false false) (VInt 5) Sample.one_row_db
  = Ok (AddResponse.mk "5" (Plain VNone) [] "Key not found")
  /\ AddResponse.bool_ (AddResponse.mk "5" (Plain VNone) [] "Key not found")
     = false.
Proof.
  apply (get_absent_key (R:=Sample.repr) (B:=Sample.builtins)
           (mkBase "t" false false) (VInt 5) Sample.one_row_db
           {[ "k" := mkRow "one" None 100 100 ]}).
  - reflexivity.
  - vm_compute; reflexivity.
  - vm_compute; reflexivity.
Defined.

Lemma deletes_response_witness :
  exists db',
    Records.deletes (E:=Sample.engine) (mkBase "t" false false)
      (VList (VStr <$> ["k"; "z"])) Sample.one_row_db
    = (DeletesResponse.mk
         (Z.of_nat (size (filter (fun kv => kv.1 ∈ ["k"; "z"])
                            ({[ "k" := mkRow "one" None 100 100 ]}
                               : gmap string row)))) "", db')
    /\ DeletesResponse.bool_
         (DeletesResponse.mk
            (Z.of_nat (size (filter (fun kv => kv.1 ∈ ["k"; "z"])
                               ({[ "k" := mkRow "one" None 100 100 ]}
                                  : gmap string row)))) "") = true
    /\ (forall k, k ∈ ["k"; "z"] -> Backends.get "t" k db' = Ok None)
    /\ (forall k, k ∉ ["k"; "z"] ->
          Backends.get "t" k db' = Backends.get "t" k Sample.one_row_db).
Proof.
  apply (deletes_response (E:=Sample.engine) (mkBase "t" false false)
           ["k"; "z"] Sample.one_row_db {[ "k" := mkRow "one" None 100 100 ]}).
  - vm_compute; reflexivity.
  - intros tg. vm_compute. discriminate.
  - discriminate.
  - vm_compute. discriminate.
Defined.

End RecordsSpec.

(** ** The cache of Base objects *)

Module OakSpec.
Import Backends Facade.

Section Cache.
Context {R : PyRepr} {B : Builtins} {E : Engine}.

(** [Oak.Base] makes one object for a name and hands the same object out
    afterwards without going to the store: asked again after the base was
    dropped through that object, it does not create the table anew, and
    [add] through the object raises the engine's error.  The name is one
    that the engine takes as a table name, it does not name a mirror, and
    the vector mirror of the base is absent or its module is loaded, so
    that the statements of [drop] go through. *)
Theorem base_handle_outlives_drop (nm k : string) (data : pyobj) (now : Z)
    (objs : Oak.objects) (h : heap) (db db1 : SQLiteBackend) (b : Base) :
  safe_name nm = true ->
  tables db !! nm ≠ Some Virtual ->
  tables db !! (nm +:+ "_vec") = None \/ vec_enabled db = true ->
  new_Base nm db = (Ok b, db1) ->
  k ≠ "" ->
  exists l oak1 objs1 b' db2,
    Oak.Base Oak.new nm objs db = (Ok (l, oak1), objs1, db1)
    /\ objs !! l = None
    /\ objs1 = <[l := b]> objs
    /\ is_Some (tables db1 !! nm)
    /\ (forall objs' db', Oak.Base oak1 nm objs' db' = (Ok (l, oak1), objs', db'))
    /\ drop b nm false db1 = (Ok (true, b'), db2)
    /\ tables db2 !! nm = None
    /\ Oak.Base oak1 nm objs1 db2 = (Ok (l, oak1), objs1, db2)
    /\ Records.add b' (Plain data) (VStr k) false now h db2
       = (Raise (OperationalError ("no such table: " +:+ nm)), h, db2).
Proof.
  intros _ _ _ Hnew Hk.
  assert (name b = nm /\ db1 = initialize nm db) as [Hname ->].
  { revert Hnew. unfold new_Base.
    destruct (get_configs nm (initialize nm db)); [|done].
    by intros [= <- <-]. }
  assert (String.eqb k "" = false) as Hk' by by apply String.eqb_neq.
  eexists (fresh (dom objs)), _, _, _, _.
  split; [unfold Oak.Base; cbn [Oak._bases Oak.new]; by rewrite lookup_empty, Hnew|].
  split; [apply not_elem_of_dom, is_fresh|].
  split; [done|].
  split.
  { unfold initialize, sql_create_table.
    destruct (tables db !! nm) as [x|] eqn:Hn.
    - destruct (tables db !! "oak_conf"); cbn [tables with_tables].
      + by rewrite Hn.
      + destruct (decide (nm = "oak_conf")) as [->|Hne].
        * by rewrite lookup_insert_eq.
        * rewrite lookup_insert_ne by done. by rewrite Hn.
    - cbn [tables with_tables].
      destruct (decide (nm = "oak_conf")) as [->|Hne].
      + rewrite lookup_insert_eq. cbn [tables with_tables].
        by rewrite lookup_insert_eq.
      + rewrite lookup_insert_ne by done.
        destruct (tables db !! "oak_conf"); cbn [tables with_tables].
        * by rewrite lookup_insert_eq.
        * rewrite lookup_insert_ne by done. by rewrite lookup_insert_eq. }
  split.
  { intros objs' db'. unfold Oak.Base. cbn [Oak._bases].
    by rewrite lookup_insert_eq. }
  assert (tables (drop_tables nm "all" (initialize nm db)) !! nm = None)
    as Hgone.
  { unfold drop_tables. apply FacadeSpec.foldl_drop_table. right.
    unfold droplist.
    replace (bool_decide ("all" ∈ ["all"; "main"])) with true
      by (symmetry; apply bool_decide_eq_true; left).
    cbn [app]. left. }
  split.
  { unfold drop. rewrite Hname, String.eqb_refl. cbn [negb]. reflexivity. }
  split; [exact Hgone|].
  split.
  { unfold Oak.Base. cbn [Oak._bases]. by rewrite lookup_insert_eq. }
  unfold Records.add. cbn [truthy py_str name]. rewrite Hk'. cbn [negb py_str].
  unfold Backends.add, sql_insert, rows_of. rewrite Hgone.
  reflexivity.
Qed.

End Cache.

Lemma base_handle_outlives_drop_witness :
  exists l oak1 objs1 b' db2,
    Oak.Base Oak.new "t" ∅ Sample.empty_db
    = (Ok (l, oak1), objs1, initialize "t" Sample.empty_db)
    /\ (∅ : Oak.objects) !! l = None
    /\ objs1 = <[l := mkBase "t" false false]> ∅
    /\ is_Some (tables (initialize "t" Sample.empty_db) !! "t")
    /\ (forall objs' db',
          Oak.Base oak1 "t" objs' db'
          = (Ok (l, oak1), objs', db'))
    /\ drop (E:=Sample.engine) (mkBase "t" false false) "t" false
         (initialize "t" Sample.empty_db) = (Ok (true, b'), db2)
    /\ tables db2 !! "t" = None
    /\ Oak.Base oak1 "t" objs1 db2
       = (Ok (l, oak1), objs1, db2)
    /\ Records.add (R:=Sample.repr) (B:=Sample.builtins) (E:=Sample.engine)
         b' (Plain (VInt 1)) (VStr "k") false 200 ∅ db2
       = (Raise (OperationalError ("no such table: " +:+ "t")), ∅, db2).
Proof.
  apply (base_handle_outlives_drop (R:=Sample.repr) (B:=Sample.builtins)
           (E:=Sample.engine) "t" "k" (VInt 1) 200 ∅ ∅ Sample.empty_db
           (initialize "t" Sample.empty_db) (mkBase "t" false false)).
  - vm_compute; reflexivity.
  - vm_compute. discriminate.
  - left. vm_compute; reflexivity.
  - vm_compute; reflexivity.
  - discriminate.
Defined.

End OakSpec.
